(** * codex-mcp-async: the task subsystem and the dispatcher of
      [codex_mcp_server.py], embedded in Rocq.

    The server wraps the [codex] command-line tool as three MCP tools.  The
    embedding follows the Python source function by function:

    - Python strings are lists of Unicode code points;
    - JSON values, as [json.loads] builds them and [json.dumps] prints them,
      are an inductive type, dictionaries being association lists in
      insertion order;
    - the task directory is a pair of finite maps from artifact paths to
      capture files and to metadata records;
    - what the server cannot decide itself (pathlib, the clock, uuid4, the
      child process, the JSON parser) is a record of oracles, [Env];
    - a Python exception that nothing catches ends the call with [Raise].

    Timestamps are rationals: every float is one.  The difference of two
    timestamps is the exact one.  The float subtraction of the source is
    exact when the two timestamps are within a factor 2 of each other
    (Sterbenz), and it is monotone; so once the clock is past 20 seconds
    the test [idle_time < 10] of the source decides as the exact one does,
    and the elapsed seconds of a task that started in the second half of
    the time since the epoch are the exact ones.

    A capture artifact is held as its bytes, which [read_text] decodes.  A
    metadata artifact is held as the record that the launcher or a check
    wrote, not as its JSON text: nothing else writes to the task directory,
    so [json.load] finds the keys the source reads.  A path that is not in
    the task directory is missing, or cannot be looked up at all (its name
    is too long, say): then [exists] raises.  The child process writes its
    capture files on its own: every function is modelled on the task
    directory as the call finds it. *)

From Stdlib Require Import ZArith QArith Qminmax Qround String Ascii List DecimalString.
From stdpp Require Import base option list gmap.

Local Open Scope Z_scope.

(** ** Python strings *)

Abbreviation pystr := (list N).

(** A literal of the source, as code points. *)
Definition lit (s : string) : pystr := N_of_ascii <$> list_ascii_of_string s.

Definition NL : N := 10%N.
Definition DQ : N := 34%N.

(** [bool(s)] for a string. *)
Definition str_truthy (s : pystr) : bool :=
  match s with [] => false | _ :: _ => true end.

(** [str.isspace] on one code point (CPython's [_PyUnicode_IsWhitespace]). *)
Definition isspace (c : N) : bool :=
  ((9 <=? c) && (c <=? 13) || (28 <=? c) && (c <=? 32) || (c =? 133)
   || (c =? 160) || (c =? 5760) || (8192 <=? c) && (c <=? 8202)
   || (c =? 8232) || (c =? 8233) || (c =? 8239) || (c =? 8287)
   || (c =? 12288))%N.

Fixpoint lstrip (s : pystr) : pystr :=
  match s with
  | c :: r => if isspace c then lstrip r else s
  | [] => []
  end.

Definition rstrip (s : pystr) : pystr := rev (lstrip (rev s)).

(** [s.strip()] *)
Definition strip (s : pystr) : pystr := rstrip (lstrip s).

(** [s.startswith(p)] *)
Fixpoint startswith (p s : pystr) : bool :=
  match p, s with
  | [], _ => true
  | _ :: _, [] => false
  | a :: p', b :: s' => (a =? b)%N && startswith p' s'
  end.

(** ** The Output Extractor *)

Module Extractor.

(** The two literals of the pattern [codex\n(.+?)(?:tokens used|\Z)]. *)
Definition CODEX_MARKER : pystr := lit "codex" ++ [NL].
Definition TOKENS_USED : pystr := lit "tokens used".
Definition NO_OUTPUT : pystr := lit "No output from Codex".

(** The lazy [.+?] has taken its first character and stands before [r].
    It stops as soon as [(?:tokens used|\Z)] matches, and otherwise takes
    one more character (DOTALL: any character). *)
Fixpoint lazy_tail (r : pystr) : pystr :=
  if startswith TOKENS_USED r then []
  else match r with
       | [] => []
       | c :: r' => c :: lazy_tail r'
       end.

(** The pattern tried at the start of [s]: group 1 of the match. *)
Definition match_here (s : pystr) : option pystr :=
  if startswith CODEX_MARKER s then
    match drop (length CODEX_MARKER) s with
    | c :: r => Some (c :: lazy_tail r)
    | [] => None
    end
  else None.

(** [re.search]: the leftmost position where the pattern matches. *)
Fixpoint re_search (s : pystr) : option pystr :=
  match match_here s with
  | Some g => Some g
  | None => match s with
            | [] => None
            | _ :: s' => re_search s'
            end
  end.

Definition extract_result_from_codex_output (stdout stderr : pystr) : pystr :=
  let result := strip stdout in
  let result :=
    if negb (str_truthy result) && str_truthy stderr then
      match re_search stderr with
      | Some g => strip g
      | None => result
      end
    else result in
  if str_truthy result then result else NO_OUTPUT.

(** *** What the pattern carves out, stated on the text *)

(** Where the lazy group ends in [r]: at the first place where
    [tokens used] follows or the text ends. *)
Definition carve_end (r t : pystr) : Prop :=
  exists post,
    r = t ++ post /\
    (post = [] \/ TOKENS_USED `prefix_of` post) /\
    forall i, (i < length t)%nat -> ~ TOKENS_USED `prefix_of` drop i r.

(** The segment the pattern carves out of [s]: it starts after the first
    [codex\n] that has a character after it and ends where [carve_end]
    says. *)
Definition segment (s g : pystr) : Prop :=
  exists pre c r t,
    s = pre ++ CODEX_MARKER ++ c :: r /\
    (forall i, (i < length pre)%nat -> ~ CODEX_MARKER `prefix_of` drop i s) /\
    carve_end r t /\
    g = c :: t.

End Extractor.

(** ** JSON values

    What [json.loads] returns and [json.dumps] accepts.  A dictionary is an
    association list in insertion order; Python keeps one value per key.
    [JNaN] and [JInfinity] are the floats [json.loads] makes of the words
    [NaN], [Infinity] and [-Infinity]. *)

#[warnings="-register-all"]
Inductive json : Type :=
| JNull
| JBool (b : bool)
| JInt (z : Z)
| JFloat (q : Q)
| JStr (s : pystr)
| JArr (l : list json)
| JObj (kvs : list (pystr * json))
| JNaN
| JInfinity (negative : bool).

Definition js (s : string) : json := JStr (lit s).

(** A dictionary literal of the source, written [obj ["key" =: value; ...]]. *)
Definition obj (kvs : list (string * json)) : json :=
  JObj (map (fun kv => (lit (fst kv), snd kv)) kvs).

Notation "k =: v" := (pair k%string v)
  (at level 60, no associativity, only parsing).

(** [bool(v)] *)
Definition truthy (v : json) : bool :=
  match v with
  | JNull => false
  | JBool b => b
  | JInt z => negb (z =? 0)
  | JFloat q => negb (Qeq_bool q 0)
  | JStr s => str_truthy s
  | JArr l => match l with [] => false | _ :: _ => true end
  | JObj kvs => match kvs with [] => false | _ :: _ => true end
  | JNaN => true
  | JInfinity _ => true
  end.

(** [v == 'literal'] : only a string equals a string. *)
Definition is_str (v : json) (s : pystr) : bool :=
  match v with
  | JStr t => bool_decide (t = s)
  | _ => false
  end.

Fixpoint assoc (k : pystr) (kvs : list (pystr * json)) : option json :=
  match kvs with
  | [] => None
  | (k', v) :: rest => if bool_decide (k' = k) then Some v else assoc k rest
  end.

(** ** Exceptions and the world *)

Inductive exn : Type :=
| AttributeError
| TypeError
| ValueError
| OSError
| UnicodeDecodeError
| OtherError (msg : pystr).

Inductive res (A : Type) : Type :=
| Ok (a : A)
| Raise (e : exn).
Arguments Ok {A} a.
Arguments Raise {A} e.

(** [d.get(k, default)]: only a dictionary has [get]. *)
Definition py_get (d : json) (k : string) (dflt : json) : res json :=
  match d with
  | JObj kvs => Ok (default dflt (assoc (lit k) kvs))
  | _ => Raise AttributeError
  end.

(** A capture artifact ([.stdout], [.stderr]): its bytes and its
    [st_mtime]. *)
Record capture : Type := Capture { content : pystr; mtime : Q }.

(** The metadata record of a [.meta] artifact, with the keys the launcher
    writes; [completed_at] is absent until a check adds it. *)
Record metadata_record : Type := Metadata {
  task_id : pystr;
  pid : Z;
  status : pystr;
  command : pystr;
  started_at : Q;
  completed_at : option Q
}.

(** The task directory, the number of interactions with the environment so
    far, and the lines printed on stdout, oldest first. *)
Record World : Type := MkWorld {
  captures : gmap pystr capture;
  metas : gmap pystr metadata_record;
  ticks : nat;
  sent : list json
}.

(** [subprocess.run] as [call_codex_sync] sees it: the captured texts,
    [TimeoutExpired], or another [Exception] [e], given as [str(e)]. *)
Inductive run_outcome : Type :=
| RunCompleted (stdout stderr : pystr)
| RunTimeoutExpired
| RunException (str_e : pystr).

(** The environment.  [with_suffix task_id sfx] is the path
    [(TASK_DIR / task_id).with_suffix(sfx)], or [None] where pathlib raises
    [ValueError] (an id that leaves the path without a name).  The clock
    ([time.time()], and the stamp of a file that is created), [uuid.uuid4()],
    [subprocess.Popen] (the pid, or the exception it raises) and
    [subprocess.run] answer the [n]-th interaction with the environment.
    [json_loads] is [json.loads]: the value, or [str(e)] of its
    [JSONDecodeError] (a text nested so deeply that the parser gives up
    with [RecursionError] is left out).  [repr_other] is [str(v)] of a value that is neither
    a string nor [None].  [stat_fails p] tells that [os.stat] fails on the
    path [p], which holds no file, with an error other than "no such file",
    so that [Path.exists] raises it.  [decode_text] is the decoding of
    [Path.read_text] (the encoding of the locale, universal newlines): the
    text, or the exception it raises. *)
Record Env : Type := MkEnv {
  with_suffix : pystr -> pystr -> option pystr;
  time_at : nat -> Q;
  uuid4_at : nat -> pystr;
  popen_at : nat -> list json -> res Z;
  run_at : nat -> list json -> json -> run_outcome;
  json_loads : pystr -> pystr + json;
  repr_other : json -> pystr;
  stat_fails : pystr -> bool;
  decode_text : pystr -> res pystr
}.

(** ** State and exceptions *)

Definition M (A : Type) : Type := World -> res A * World.

Definition ret {A} (a : A) : M A := fun w => (Ok a, w).

Definition bind {A B} (m : M A) (k : A -> M B) : M B :=
  fun w => match m w with
           | (Ok a, w') => k a w'
           | (Raise e, w') => (Raise e, w')
           end.

Notation "'let!' x := m 'in' k" := (bind m (fun x => k))
  (at level 10, x name, m at level 100, k at level 200).

Definition lift {A} (r : res A) : M A := fun w => (r, w).

Definition get_world : M World := fun w => (Ok w, w).

(** One interaction with the environment: its index. *)
Definition tick : M nat :=
  fun w => (Ok (ticks w), MkWorld (captures w) (metas w) (S (ticks w)) (sent w)).

(** [time.time()] *)
Definition time_time (E : Env) : M Q := let! n := tick in ret (time_at E n).

(** [(TASK_DIR / task_id).with_suffix(sfx)] *)
Definition task_file (E : Env) (task_id : pystr) (sfx : string) : M pystr :=
  lift (match with_suffix E task_id (lit sfx) with
        | Some p => Ok p
        | None => Raise ValueError
        end).

(** [open(p, 'w')] and [close]: the file is there and empty, stamped with the
    clock. *)
Definition open_w (E : Env) (p : pystr) : M unit :=
  let! n := tick in
  fun w => (Ok tt, MkWorld (<[p := Capture [] (time_at E n)]> (captures w))
                           (metas w) (ticks w) (sent w)).

(** [p.exists()], where [file] is what the task directory holds at [p]. *)
Definition path_exists {A} (E : Env) (p : pystr) (file : option A) : res bool :=
  match file with
  | Some _ => Ok true
  | None => if stat_fails E p then Raise OSError else Ok false
  end.

(** [p.read_text() if p.exists() else ""] *)
Definition read_text (E : Env) (file : option capture) : res pystr :=
  match file with
  | Some c => decode_text E (content c)
  | None => Ok []
  end.

(** [json.dump(metadata, f)] on [open(p, 'w')] *)
Definition dump_meta (p : pystr) (m : metadata_record) : M unit :=
  fun w => (Ok tt, MkWorld (captures w) (<[p := m]> (metas w)) (ticks w) (sent w)).

(** [print(json.dumps(response), flush=True)] *)
Definition send_response (response : json) : M unit :=
  fun w => (Ok tt, MkWorld (captures w) (metas w) (ticks w) (sent w ++ [response])).

(** ** Numbers *)

Definition Qltb (a b : Q) : bool := negb (Qle_bool b a).

(** [max(a, b)]: [b] when [b > a], else [a]. *)
Definition py_max (a b : Q) : Q := if Qltb a b then b else a.

(** [int(x)] of a float: truncation toward zero. *)
Definition py_int (x : Q) : Z := Z.quot (Qnum x) (Zpos (Qden x)).

(** [str(n)] of an integer. *)
Definition str_of_int (n : Z) : pystr := lit (NilZero.string_of_int (Z.to_int n)).

(** ** The task subsystem *)

(** The command line: [cmd = ['codex', subcommand]], the prompt when it is
    truthy, then [cmd.extend(args)] with [args or []].  [extend] iterates a
    list, a string (its characters) or a dictionary (its keys), and raises
    [TypeError] on anything else. *)
Definition iterate (v : json) : res (list json) :=
  match v with
  | JArr l => Ok l
  | JStr s => Ok (map (fun c => JStr [c]) s)
  | JObj kvs => Ok (map (fun kv => JStr (fst kv)) kvs)
  | _ => Raise TypeError
  end.

Definition build_cmd (subcommand prompt args : json) : res (list json) :=
  let args := if truthy args then args else JArr [] in
  let cmd := [js "codex"; subcommand] in
  let cmd := if truthy prompt then cmd ++ [prompt] else cmd in
  match iterate args with
  | Ok l => Ok (cmd ++ l)
  | Raise e => Raise e
  end.

(** [sep.join(l)] *)
Fixpoint join (sep : pystr) (l : list pystr) : pystr :=
  match l with
  | [] => []
  | s :: rest =>
      match rest with
      | [] => s
      | _ :: _ => s ++ sep ++ join sep rest
      end
  end.

(** The items of [cmd] when every one is a string; [TypeError] otherwise. *)
Fixpoint all_str (cmd : list json) : res (list pystr) :=
  match cmd with
  | [] => Ok []
  | JStr s :: rest =>
      match all_str rest with
      | Ok l => Ok (s :: l)
      | Raise e => Raise e
      end
  | _ :: _ => Raise TypeError
  end.

(** [' '.join(cmd)] *)
Definition join_space (cmd : list json) : res pystr :=
  match all_str cmd with
  | Ok l => Ok (join (lit " ") l)
  | Raise e => Raise e
  end.

Definition start_codex_async (E : Env) (subcommand prompt args : json)
  : M pystr :=
  let! n := tick in
  let task_id := take 8 (uuid4_at E n) in
  let! cmd := lift (build_cmd subcommand prompt args) in
  let! stdout_file := task_file E task_id ".stdout" in
  let! _ := open_w E stdout_file in
  let! stderr_file := task_file E task_id ".stderr" in
  let! _ := open_w E stderr_file in
  let! k := tick in
  let! proc_pid := lift (popen_at E k cmd) in
  let! joined := lift (join_space cmd) in
  let! now := time_time E in
  let metadata := Metadata task_id proc_pid (lit "running") joined now None in
  let! meta_file := task_file E task_id ".meta" in
  let! _ := dump_meta meta_file metadata in
  ret task_id.

(** [metadata['status'] = 'completed'; metadata['completed_at'] = now] *)
Definition mark_completed (metadata : metadata_record) (now : Q)
  : metadata_record :=
  Metadata (task_id metadata) (pid metadata) (lit "completed")
           (command metadata) (started_at metadata) (Some now).

(** The dictionary [check_task_status] returns, by its [status]. *)
Inductive status_info : Type :=
| NotFound (error : pystr)
| Running (task_id : pystr) (elapsed_seconds : Z) (command : pystr)
| Completed (task_id : pystr) (result : pystr) (elapsed_seconds : Z).

Definition check_task_status (E : Env) (task_id : pystr) : M status_info :=
  let! meta_file := task_file E task_id ".meta" in
  let! w := get_world in
  let! meta_exists := lift (path_exists E meta_file (metas w !! meta_file)) in
  match metas w !! meta_file with
  | None => ret (NotFound (lit "Task " ++ task_id ++ lit " not found"))
  | Some metadata =>
      let! stdout_file := task_file E task_id ".stdout" in
      let! stderr_file := task_file E task_id ".stderr" in
      let out := captures w !! stdout_file in
      let err := captures w !! stderr_file in
      (* both [exists] are called whatever the first one says: by the [or]
         of line 111 or by the conditional of line 114 *)
      let! stdout_exists := lift (path_exists E stdout_file out) in
      let! stderr_exists := lift (path_exists E stderr_file err) in
      let! is_running :=
        (if stdout_exists || stderr_exists then
           let latest_mtime :=
             py_max (from_option mtime 0%Q out) (from_option mtime 0%Q err) in
           let! now := time_time E in
           let idle_time := (now - latest_mtime)%Q in
           ret (Qltb idle_time 10)
         else ret false) in
      if is_running then
        let! now := time_time E in
        let elapsed := (now - started_at metadata)%Q in
        ret (Running task_id (py_int elapsed) (command metadata))
      else
        let! stdout := lift (read_text E out) in
        let! stderr := lift (read_text E err) in
        let result := Extractor.extract_result_from_codex_output stdout stderr in
        let! now := time_time E in
        let metadata := mark_completed metadata now in
        let! _ := dump_meta meta_file metadata in
        (* [metadata.get('completed_at', time.time())]: the default is
           evaluated first *)
        let! now := time_time E in
        ret (Completed task_id result
               (py_int (default now (completed_at metadata)
                        - started_at metadata)%Q))
  end.

Definition call_codex_sync (E : Env) (subcommand prompt args timeout : json)
  : M pystr :=
  let! cmd := lift (build_cmd subcommand prompt args) in
  let! n := tick in
  match run_at E n cmd timeout with
  | RunCompleted stdout stderr =>
      ret (Extractor.extract_result_from_codex_output stdout stderr)
  | RunTimeoutExpired => ret (lit "Error: Codex execution timed out")
  | RunException str_e => ret (lit "Error calling Codex: " ++ str_e)
  end.

(** ** The dispatcher *)

(** The [tools] list of the [tools/list] result. *)
Definition TOOLS : json :=
  JArr [
    obj [
      "name" =: js "codex_execute";
      "description" =: JStr (lit "Execute OpenAI Codex (GPT-5) synchronously with full control over subcommand and arguments. Returns only the core result, filtering out thinking process to save context. Common usage: subcommand="
          ++ [DQ] ++ lit "exec" ++ [DQ] ++ lit ", prompt=" ++ [DQ] ++ lit "your task" ++ [DQ]
          ++ lit ", args=[" ++ [DQ] ++ lit "--full-auto" ++ [DQ] ++ lit "]");
      "inputSchema" =: obj [
        "type" =: js "object";
        "properties" =: obj [
          "subcommand" =: obj [
            "type" =: js "string";
            "description" =: js "Codex subcommand to execute";
            "enum" =: JArr [js "exec"; js "apply"; js "resume"; js "sandbox"];
            "default" =: js "exec"];
          "prompt" =: obj [
            "type" =: js "string";
            "description" =: js "Main prompt/argument for the command (required for exec, optional for others)"];
          "args" =: obj [
            "type" =: js "array";
            "items" =: obj [
              "type" =: js "string"];
            "description" =: JStr (lit "Additional command-line arguments. Model selection: ["
                ++ [DQ] ++ lit "-m" ++ [DQ] ++ lit ", " ++ [DQ] ++ lit "gpt-5-codex" ++ [DQ]
                ++ lit "] for coding (default) or [" ++ [DQ] ++ lit "-m" ++ [DQ] ++ lit ", " ++ [DQ]
                ++ lit "gpt-5" ++ [DQ] ++ lit "] for analysis. Reasoning effort: [" ++ [DQ]
                ++ lit "--config" ++ [DQ] ++ lit ", " ++ [DQ]
                ++ lit "model_reasoning_effort=low|medium|high" ++ [DQ]
                ++ lit "] (gpt-5-codex supports low/medium/high; gpt-5 supports minimal/low/medium/high). Example: ["
                ++ [DQ] ++ lit "--full-auto" ++ [DQ] ++ lit ", " ++ [DQ] ++ lit "-m" ++ [DQ]
                ++ lit ", " ++ [DQ] ++ lit "gpt-5" ++ [DQ] ++ lit ", " ++ [DQ] ++ lit "--config"
                ++ [DQ] ++ lit ", " ++ [DQ] ++ lit "model_reasoning_effort=high" ++ [DQ]
                ++ lit "]. Always include " ++ [DQ] ++ lit "--full-auto" ++ [DQ]
                ++ lit " for non-interactive execution.")];
          "timeout" =: obj [
            "type" =: js "integer";
            "description" =: js "Timeout in seconds (default: no limit)"]];
        "required" =: JArr []]];
    obj [
      "name" =: js "codex_execute_async";
      "description" =: js "Start a Codex task in the background and return immediately with a task_id. Use codex_check_result to retrieve the result later. This allows you to continue working while Codex runs.";
      "inputSchema" =: obj [
        "type" =: js "object";
        "properties" =: obj [
          "subcommand" =: obj [
            "type" =: js "string";
            "description" =: js "Codex subcommand to execute";
            "enum" =: JArr [js "exec"; js "apply"; js "resume"; js "sandbox"];
            "default" =: js "exec"];
          "prompt" =: obj [
            "type" =: js "string";
            "description" =: js "Main prompt/argument for the command"];
          "args" =: obj [
            "type" =: js "array";
            "items" =: obj [
              "type" =: js "string"];
            "description" =: JStr (lit "Additional command-line arguments. Model selection: ["
                ++ [DQ] ++ lit "-m" ++ [DQ] ++ lit ", " ++ [DQ] ++ lit "gpt-5-codex" ++ [DQ]
                ++ lit "] for coding (default) or [" ++ [DQ] ++ lit "-m" ++ [DQ] ++ lit ", " ++ [DQ]
                ++ lit "gpt-5" ++ [DQ] ++ lit "] for analysis. Reasoning effort: [" ++ [DQ]
                ++ lit "--config" ++ [DQ] ++ lit ", " ++ [DQ]
                ++ lit "model_reasoning_effort=low|medium|high" ++ [DQ]
                ++ lit "] (gpt-5-codex supports low/medium/high; gpt-5 supports minimal/low/medium/high). Example: ["
                ++ [DQ] ++ lit "--full-auto" ++ [DQ] ++ lit ", " ++ [DQ] ++ lit "-m" ++ [DQ]
                ++ lit ", " ++ [DQ] ++ lit "gpt-5" ++ [DQ] ++ lit ", " ++ [DQ] ++ lit "--config"
                ++ [DQ] ++ lit ", " ++ [DQ] ++ lit "model_reasoning_effort=high" ++ [DQ]
                ++ lit "]. Always include " ++ [DQ] ++ lit "--full-auto" ++ [DQ]
                ++ lit " for non-interactive execution.")]];
        "required" =: JArr []]];
    obj [
      "name" =: js "codex_check_result";
      "description" =: js "Check the status of an async Codex task. Returns running/completed status and the result if available.";
      "inputSchema" =: obj [
        "type" =: js "object";
        "properties" =: obj [
          "task_id" =: obj [
            "type" =: js "string";
            "description" =: js "The task_id returned by codex_execute_async"]];
        "required" =: JArr [js "task_id"]]]].

Definition text_result (request_id : json) (text : pystr) : json :=
  obj ["jsonrpc" =: js "2.0";
       "id" =: request_id;
       "result" =: obj ["content" =:
                          JArr [obj ["type" =: js "text"; "text" =: JStr text]]]].

Definition error_response (request_id : json) (code : Z) (message : pystr)
  : json :=
  obj ["jsonrpc" =: js "2.0";
       "id" =: request_id;
       "error" =: obj ["code" =: JInt code; "message" =: JStr message]].

(** [{v}] inside an f-string: a string prints as itself and [None] as
    [None]. *)
Definition fstr (E : Env) (v : json) : pystr :=
  match v with
  | JStr s => s
  | JNull => lit "None"
  | _ => repr_other E v
  end.

(** The text of the [codex_check_result] answer. *)
Definition status_text (task_id : pystr) (status_info : status_info) : pystr :=
  match status_info with
  | Running _ elapsed_seconds command =>
      lit "Task " ++ task_id ++ lit " is still running." ++ [NL]
      ++ lit "Elapsed: " ++ str_of_int elapsed_seconds ++ lit "s" ++ [NL]
      ++ lit "Command: " ++ command
  | Completed _ result elapsed_seconds =>
      lit "Task " ++ task_id ++ lit " completed in "
      ++ str_of_int elapsed_seconds ++ lit "s." ++ [NL; NL]
      ++ lit "Result:" ++ [NL] ++ result
  | NotFound error => error
  end.

Definition handle_request (E : Env) (request : json) : M unit :=
  let! method := lift (py_get request "method" JNull) in
  let! request_id := lift (py_get request "id" JNull) in
  let! params := lift (py_get request "params" (obj [])) in
  if is_str method (lit "initialize") then
    send_response
      (obj ["jsonrpc" =: js "2.0";
            "id" =: request_id;
            "result" =: obj [
              "protocolVersion" =: js "2024-11-05";
              "capabilities" =: obj ["tools" =: obj []];
              "serverInfo" =: obj ["name" =: js "codex-mcp";
                                   "version" =: js "0.2.0"]]])
  else if is_str method (lit "tools/list") then
    send_response
      (obj ["jsonrpc" =: js "2.0";
            "id" =: request_id;
            "result" =: obj ["tools" =: TOOLS]])
  else if is_str method (lit "tools/call") then
    let! tool_name := lift (py_get params "name" JNull) in
    let! arguments := lift (py_get params "arguments" (obj [])) in
    if is_str tool_name (lit "codex_execute") then
      let! subcommand := lift (py_get arguments "subcommand" (js "exec")) in
      let! prompt := lift (py_get arguments "prompt" JNull) in
      let! args := lift (py_get arguments "args" (JArr [])) in
      let! timeout := lift (py_get arguments "timeout" JNull) in
      let! result := call_codex_sync E subcommand prompt args timeout in
      send_response (text_result request_id result)
    else if is_str tool_name (lit "codex_execute_async") then
      let! subcommand := lift (py_get arguments "subcommand" (js "exec")) in
      let! prompt := lift (py_get arguments "prompt" JNull) in
      let! args := lift (py_get arguments "args" (JArr [])) in
      let! task_id := start_codex_async E subcommand prompt args in
      send_response
        (text_result request_id
           (lit "Codex task started in background." ++ [NL]
            ++ lit "Task ID: " ++ task_id ++ [NL; NL]
            ++ lit "Use codex_check_result(task_id=" ++ [DQ] ++ task_id ++ [DQ]
            ++ lit ") to retrieve the result."))
    else if is_str tool_name (lit "codex_check_result") then
      let! task_id := lift (py_get arguments "task_id" JNull) in
      if negb (truthy task_id) then
        send_response (error_response request_id (-32602) (lit "task_id is required"))
      else
        match task_id with
        | JStr task_id =>
            let! status_info := check_task_status E task_id in
            send_response (text_result request_id (status_text task_id status_info))
        | _ =>
            (* [TASK_DIR / task_id] takes a string only *)
            lift (Raise TypeError)
        end
    else
      send_response
        (error_response request_id (-32601)
           (lit "Unknown tool: " ++ fstr E tool_name))
  else
    send_response
      (error_response request_id (-32601)
         (lit "Method not found: " ++ fstr E method)).

(** [main]: the lines of stdin, one after the other.  A blank line is
    skipped; a line [json.loads] rejects is answered with a parse error;
    an exception out of [handle_request] ends the loop. *)
Fixpoint main (E : Env) (lines : list pystr) : M unit :=
  match lines with
  | [] => ret tt
  | line :: rest =>
      let line := strip line in
      if negb (str_truthy line) then main E rest
      else
        match json_loads E line with
        | inr request =>
            let! _ := handle_request E request in
            main E rest
        | inl str_e =>
            let! _ := send_response
                        (error_response JNull (-32700)
                           (lit "Parse error: " ++ str_e)) in
            main E rest
        end
  end.

(** ** Vocabulary of the statements *)

(** The timestamp an artifact contributes to [latest_mtime]: its [st_mtime],
    or 0 when it is absent. *)
Definition stamp (c : option capture) : Q := from_option mtime 0%Q c.

(** The latest timestamp as the specification words it: the maximum
    last-modified timestamp of the capture artifacts that exist. *)
Definition latest_existing (out err : option capture) : option Q :=
  match out, err with
  | Some a, Some b => Some (Qmax (mtime a) (mtime b))
  | Some a, None => Some (mtime a)
  | None, Some b => Some (mtime b)
  | None, None => None
  end.

(** There is no file at [p], and [exists] says so. *)
Definition missing {A} (E : Env) (files : gmap pystr A) (p : pystr) : Prop :=
  files !! p = None /\ stat_fails E p = false.

(** [exists] answers for [p]: there is a file, or there is plainly none. *)
Definition answers {A} (E : Env) (files : gmap pystr A) (p : pystr) : Prop :=
  is_Some (files !! p) \/ stat_fails E p = false.

(** The capture, when there is one, can be read as text. *)
Definition readable (E : Env) (file : option capture) : Prop :=
  exists text, read_text E file = Ok text.

(** The three artifact paths of a task id. *)
Definition task_paths (E : Env) (task_id meta_file stdout_file stderr_file : pystr)
  : Prop :=
  with_suffix E task_id (lit ".meta") = Some meta_file /\
  with_suffix E task_id (lit ".stdout") = Some stdout_file /\
  with_suffix E task_id (lit ".stderr") = Some stderr_file.

(** The world after [n] more interactions with the environment. *)
Definition advance (n : nat) (w : World) : World :=
  MkWorld (captures w) (metas w) (n + ticks w) (sent w).

(** The world after the record [m] is written to the path [p]. *)
Definition with_meta (p : pystr) (m : metadata_record) (w : World) : World :=
  MkWorld (captures w) (<[p := m]> (metas w)) (ticks w) (sent w).

(** The world after one more line is printed. *)
Definition sending (w : World) (response : json) : World :=
  MkWorld (captures w) (metas w) (ticks w) (sent w ++ [response]).

(** [request] is a [tools/call] request with this id, tool name and
    arguments ([params] is a dictionary, or absent). *)
Definition is_tool_call (request request_id tool_name arguments : json) : Prop :=
  exists params,
    py_get request "method" JNull = Ok (js "tools/call") /\
    py_get request "id" JNull = Ok request_id /\
    py_get request "params" (obj []) = Ok params /\
    py_get params "name" JNull = Ok tool_name /\
    py_get params "arguments" (obj []) = Ok arguments.

(** [v["k"]] of a response, when it is there. *)
Definition member (k : string) (v : json) : option json :=
  match v with
  | JObj kvs => assoc (lit k) kvs
  | _ => None
  end.

(** The tool catalog of a [tools/list] response. *)
Definition tools_of (response : json) : option json :=
  match member "result" response with
  | Some result => member "tools" result
  | None => None
  end.

(** A successful response with one text item, read off the printed object. *)
Definition is_text_response (request_id : json) (text : pystr) (response : json)
  : Prop :=
  member "jsonrpc" response = Some (JStr (lit "2.0")) /\
  member "id" response = Some request_id /\
  member "error" response = None /\
  member "result" response
  = Some (JObj [(lit "content",
                 JArr [JObj [(lit "type", JStr (lit "text"));
                             (lit "text", JStr text)]])]).

(** An error response, read off the printed object. *)
Definition is_error_response (request_id : json) (code : Z) (message : pystr)
    (response : json) : Prop :=
  member "jsonrpc" response = Some (JStr (lit "2.0")) /\
  member "id" response = Some request_id /\
  member "result" response = None /\
  member "error" response
  = Some (JObj [(lit "code", JInt code); (lit "message", JStr message)]).

(** ** A sample environment

    Used by the examples only.  Its pathlib is right for the ids the
    examples use (letters and digits, and the empty id, which names the
    task directory itself); its parser is a table of what [json.loads]
    answers on the lines the examples use; its file system refuses names
    of more than 255 characters; its locale is UTF-8. *)

Definition sample_with_suffix (task_id sfx : pystr) : option pystr :=
  match task_id with
  | [] => Some (lit "/tmp/codex_tasks" ++ sfx)
  | _ :: _ => Some (lit "/tmp/codex_tasks/" ++ task_id ++ sfx)
  end.

Definition PING : json := obj ["id" =: JInt 1; "method" =: js "ping"].

Definition PING_LINE : pystr :=
  lit "{" ++ [DQ] ++ lit "id" ++ [DQ] ++ lit ": 1, " ++ [DQ] ++ lit "method"
  ++ [DQ] ++ lit ": " ++ [DQ] ++ lit "ping" ++ [DQ] ++ lit "}".

(** [json.loads] on the lines of the examples: the request [PING_LINE], the
    texts [42] and [NaN], the truncated object [{bad], and texts that start
    no value (the empty text, [}]), which is also what the table answers
    for a line it does not list. *)
Definition sample_loads (line : pystr) : pystr + json :=
  if bool_decide (line = PING_LINE) then inr PING
  else if bool_decide (line = lit "42") then inr (JInt 42)
  else if bool_decide (line = lit "NaN") then inr JNaN
  else if bool_decide (line = lit "{bad") then
    inl (lit "Expecting property name enclosed in double quotes: line 1 column 2 (char 1)")
  else inl (lit "Expecting value: line 1 column 1 (char 0)").

(** The last component of a path. *)
Fixpoint name_of (p : pystr) : pystr :=
  match p with
  | [] => []
  | c :: r => if existsb (N.eqb 47) r then name_of r else
              if (c =? 47)%N then r else p
  end.

(** [os.stat] fails with [ENAMETOOLONG] on a name of more than 255
    characters. *)
Definition sample_stat_fails (p : pystr) : bool :=
  (255 <? length (name_of p))%nat.

Definition continuation (b : N) : bool := ((128 <=? b) && (b <=? 191))%N.

(** UTF-8, strictly: no overlong form, no surrogate, nothing above
    U+10FFFF. *)
Fixpoint utf8_decode (bytes : pystr) : option pystr :=
  match bytes with
  | [] => Some []
  | b :: r =>
      if (b <? 128)%N then cons b <$> utf8_decode r
      else if ((194 <=? b) && (b <=? 223))%N then
        match r with
        | c1 :: r1 =>
            if continuation c1
            then cons ((b - 192) * 64 + (c1 - 128))%N <$> utf8_decode r1
            else None
        | _ => None
        end
      else if ((224 <=? b) && (b <=? 239))%N then
        match r with
        | c1 :: c2 :: r2 =>
            if continuation c1 && continuation c2
               && negb ((b =? 224) && (c1 <? 160))%N
               && negb ((b =? 237) && (159 <? c1))%N
            then cons ((b - 224) * 4096 + (c1 - 128) * 64 + (c2 - 128))%N
                   <$> utf8_decode r2
            else None
        | _ => None
        end
      else if ((240 <=? b) && (b <=? 244))%N then
        match r with
        | c1 :: c2 :: c3 :: r3 =>
            if continuation c1 && continuation c2 && continuation c3
               && negb ((b =? 240) && (c1 <? 144))%N
               && negb ((b =? 244) && (143 <? c1))%N
            then cons ((b - 240) * 262144 + (c1 - 128) * 4096
                       + (c2 - 128) * 64 + (c3 - 128))%N
                   <$> utf8_decode r3
            else None
        | _ => None
        end
      else None
  end.

(** Universal newlines: [\r\n] and [\r] are read as [\n]. *)
Fixpoint universal_newlines (s : pystr) : pystr :=
  match s with
  | [] => []
  | c :: r =>
      if (c =? 13)%N then
        match r with
        | c' :: r' => if (c' =? 10)%N then 10%N :: universal_newlines r'
                      else 10%N :: universal_newlines r
        | [] => [10%N]
        end
      else c :: universal_newlines r
  end.

Definition sample_decode (bytes : pystr) : res pystr :=
  match utf8_decode bytes with
  | Some text => Ok (universal_newlines text)
  | None => Raise UnicodeDecodeError
  end.

Definition sample_env (clock : nat -> Q) (child : run_outcome) : Env :=
  MkEnv sample_with_suffix clock
        (fun _ => lit "3f2a9c1e-7b4d-4e8a-9c0f-1d2e3f4a5b6c")
        (fun _ _ => Ok 4242)
        (fun _ _ _ => child)
        sample_loads
        (fun _ => lit "?")
        sample_stat_fails
        sample_decode.

Definition empty_world : World := MkWorld ∅ ∅ 0 [].

Definition ticking (t0 : Z) : nat -> Q := fun n => inject_Z (t0 + Z.of_nat n).

Definition TID : pystr := lit "ab12cd34".
Definition TID_META : pystr := lit "/tmp/codex_tasks/ab12cd34.meta".
Definition TID_STDOUT : pystr := lit "/tmp/codex_tasks/ab12cd34.stdout".
Definition TID_STDERR : pystr := lit "/tmp/codex_tasks/ab12cd34.stderr".

Definition TID_RECORD : metadata_record :=
  Metadata TID 4242 (lit "running") (lit "codex exec hi") 995 None.

(** The task has written [hi] to stdout at time 1000. *)
Definition w_task : World :=
  MkWorld {[ TID_STDOUT := Capture (lit "hi") 1000 ]} {[ TID_META := TID_RECORD ]} 0 [].

(** The task has written the two bytes FF FE, which are no UTF-8, to stdout
    at time 1000. *)
Definition w_binary : World :=
  MkWorld {[ TID_STDOUT := Capture [255; 254]%N 1000 ]} {[ TID_META := TID_RECORD ]}
          0 [].

(** An id of 251 characters: with [.meta] its name has 256. *)
Definition LONG_ID : pystr := repeat 97%N 251.


Definition call (request_id : json) (tool : string) (arguments : json) : json :=
  obj ["jsonrpc" =: js "2.0";
       "id" =: request_id;
       "method" =: js "tools/call";
       "params" =: obj ["name" =: js tool; "arguments" =: arguments]].

Definition list_tools (request_id : json) : json :=
  obj ["jsonrpc" =: js "2.0"; "id" =: request_id; "method" =: js "tools/list"].

Definition sample : Env := sample_env (ticking 2000) RunTimeoutExpired.

(** ** Vocabulary of the further properties *)

(** The first character of [s], if any, is not white space. *)
Definition starts_clean (s : pystr) : bool :=
  match s with
  | [] => true
  | c :: _ => negb (isspace c)
  end.

(** No white space at either end of [s]. *)
Definition trimmed (s : pystr) : bool := starts_clean s && starts_clean (rev s).

(** The text [call_codex_sync] makes of what [subprocess.run] did. *)
Definition sync_text (o : run_outcome) : pystr :=
  match o with
  | RunCompleted stdout stderr =>
      Extractor.extract_result_from_codex_output stdout stderr
  | RunTimeoutExpired => lit "Error: Codex execution timed out"
  | RunException str_e => lit "Error calling Codex: " ++ str_e
  end.

(** A response of the server: the protocol version, the id, and either a
    result or an error. *)
Definition is_response (request_id response : json) : Prop :=
  member "jsonrpc" response = Some (js "2.0") /\
  member "id" response = Some request_id /\
  (is_Some (member "result" response) /\ member "error" response = None \/
   member "result" response = None /\ is_Some (member "error" response)).

(** The line is not blank: [main] looks at it. *)
Definition nonblank (line : pystr) : bool := str_truthy (strip line).

(** The answers of [main] to lines that [json.loads] rejects. *)
Definition parse_errors (E : Env) (lines : list pystr) : list json :=
  flat_map (fun line =>
              match json_loads E (strip line) with
              | inl str_e =>
                  [error_response JNull (-32700) (lit "Parse error: " ++ str_e)]
              | inr _ => []
              end)
           (List.filter nonblank lines).

(** The world after [open(p, 'w')] at the [n]-th interaction. *)
Definition with_capture (E : Env) (p : pystr) (n : nat) (w : World) : World :=
  MkWorld (<[p := Capture [] (time_at E n)]> (captures w)) (metas w) (ticks w) (sent w).

(** The text of the answer to a launch. *)
Definition launch_text (task_id : pystr) : pystr :=
  lit "Codex task started in background." ++ [NL]
  ++ lit "Task ID: " ++ task_id ++ [NL; NL]
  ++ lit "Use codex_check_result(task_id=" ++ [DQ] ++ task_id ++ [DQ]
  ++ lit ") to retrieve the result.".

(** *** More samples *)

(** An environment in which the executable cannot be started. *)
Definition broken_env : Env :=
  MkEnv sample_with_suffix (ticking 2000)
        (fun _ => lit "3f2a9c1e-7b4d-4e8a-9c0f-1d2e3f4a5b6c")
        (fun _ _ => Raise (OtherError (lit "[Errno 2] No such file or directory: 'codex'")))
        (fun _ _ _ => RunTimeoutExpired)
        sample_loads
        (fun _ => lit "?")
        sample_stat_fails
        sample_decode.

(** An environment whose parser knows the line [42]. *)
Definition number_env : Env :=
  MkEnv sample_with_suffix (ticking 2000)
        (fun _ => lit "3f2a9c1e-7b4d-4e8a-9c0f-1d2e3f4a5b6c")
        (fun _ _ => Ok 4242)
        (fun _ _ _ => RunTimeoutExpired)
        (fun line => if bool_decide (line = lit "42") then inr (JInt 42)
                     else inl (lit "Expecting value: line 1 column 1 (char 0)"))
        (fun _ => lit "?")
        sample_stat_fails
        sample_decode.

Definition LAUNCH_ARGS : list (pystr * json) :=
  [(lit "prompt", js "hi"); (lit "args", JArr [js "--full-auto"])].

(** A launch in the empty task directory. *)
Definition SAMPLE_LAUNCH : res pystr * World :=
  start_codex_async sample (js "exec") (js "hi") (JArr [js "--full-auto"]) empty_world.

(** * Properties *)

(** ** Strings and JSON values *)

Lemma is_str_spec (v : json) (s : pystr) : is_str v s = true <-> v = JStr s.
Proof.
  destruct v; simpl; try (split; [discriminate | congruence]).
  rewrite bool_decide_eq_true. split; congruence.
Qed.

Lemma str_truthy_true (s : pystr) : str_truthy s = true <-> s <> [].
Proof. destruct s; simpl; split; congruence. Qed.

Lemma str_truthy_false (s : pystr) : str_truthy s = false <-> s = [].
Proof. destruct s; simpl; split; congruence. Qed.

(** ** The Output Extractor *)

Import Extractor.

Lemma startswith_prefix (p s : pystr) :
  startswith p s = true <-> p `prefix_of` s.
Proof.
  revert s. induction p as [|a p IH]; intros s; simpl.
  - split; [intros _; apply prefix_nil | done].
  - destruct s as [|b s].
    + split; [done | intros H; by apply prefix_nil_not in H].
    + rewrite andb_true_iff, N.eqb_eq, IH. split.
      * intros [-> H]. by apply prefix_cons.
      * intros H. split; [by apply prefix_cons_inv_1 in H | by apply prefix_cons_inv_2 in H].
Qed.

Lemma startswith_false (p s : pystr) :
  startswith p s = false <-> ~ p `prefix_of` s.
Proof.
  rewrite <- startswith_prefix. destruct (startswith p s); split; congruence.
Qed.

Lemma lazy_tail_eq (r : pystr) :
  lazy_tail r =
  if startswith TOKENS_USED r then []
  else match r with [] => [] | c :: r' => c :: lazy_tail r' end.
Proof. destruct r; reflexivity. Qed.

Lemma tokens_not_nil : ~ TOKENS_USED `prefix_of` [].
Proof. intros H. apply prefix_nil_inv in H. discriminate H. Qed.

Lemma lazy_tail_carve (r : pystr) : carve_end r (lazy_tail r).
Proof.
  induction r as [|c r IH]; rewrite lazy_tail_eq.
  - destruct (startswith TOKENS_USED []) eqn:Hs.
    + apply startswith_prefix in Hs. by apply tokens_not_nil in Hs.
    + exists []. split; [done|]. split; [by left|]. simpl. lia.
  - destruct (startswith TOKENS_USED (c :: r)) eqn:Hs.
    + exists (c :: r). split; [done|]. split.
      * right. by apply startswith_prefix.
      * simpl. lia.
    + destruct IH as (post & Hr & Hpost & Hmin).
      exists post. split; [simpl; congruence|]. split; [done|].
      intros [|i] Hi; simpl in *.
      * by apply startswith_false.
      * apply Hmin. lia.
Qed.

Lemma carve_end_unique (r t : pystr) : carve_end r t -> t = lazy_tail r.
Proof.
  revert t. induction r as [|c r IH]; intros t (post & Hr & Hpost & Hmin);
    rewrite lazy_tail_eq.
  - destruct (startswith TOKENS_USED []) eqn:Hs.
    + apply startswith_prefix in Hs. by apply tokens_not_nil in Hs.
    + symmetry in Hr. by apply app_eq_nil in Hr as [-> _].
  - destruct (startswith TOKENS_USED (c :: r)) eqn:Hs.
    + destruct t as [|a t]; [done|].
      apply startswith_prefix in Hs. exfalso.
      apply (Hmin 0%nat); [simpl; lia | done].
    + destruct t as [|a t].
      * simpl in Hr. subst post. destruct Hpost as [Hp | Hp]; [done|].
        apply startswith_false in Hs. done.
      * simpl in Hr. injection Hr as <- Hr. f_equal. apply IH.
        exists post. split; [done|]. split; [done|].
        intros i Hi. apply (Hmin (S i)). simpl. lia.
Qed.

Lemma match_here_Some (s g : pystr) :
  match_here s = Some g <->
  exists c r, s = CODEX_MARKER ++ c :: r /\ g = c :: lazy_tail r.
Proof.
  unfold match_here. destruct (startswith CODEX_MARKER s) eqn:Hs.
  - apply startswith_prefix in Hs as [k ->].
    rewrite drop_app_length. destruct k as [|c r]; split.
    + done.
    + intros (c & r & H & _). apply app_inv_head in H. done.
    + intros [= <-]. eauto.
    + intros (c' & r' & H & ->). apply app_inv_head in H. by injection H as -> ->.
  - apply startswith_false in Hs. split; [done|].
    intros (c & r & -> & _). destruct Hs. by eexists.
Qed.

Lemma re_search_eq (s : pystr) :
  re_search s =
  match match_here s with
  | Some g => Some g
  | None => match s with [] => None | _ :: s' => re_search s' end
  end.
Proof. destruct s; reflexivity. Qed.

Lemma re_search_segment (s g : pystr) :
  re_search s = Some g <-> segment s g.
Proof.
  split.
  - revert g. induction s as [|a s IH]; intros g; rewrite re_search_eq.
    + destruct (match_here []) eqn:Hm; [|done].
      apply match_here_Some in Hm as (c & r & H & _). discriminate H.
    + destruct (match_here (a :: s)) eqn:Hm.
      * intros [= <-]. apply match_here_Some in Hm as (c & r & H & ->).
        exists [], c, r, (lazy_tail r). split; [done|]. split; [simpl; lia|].
        split; [apply lazy_tail_carve | done].
      * intros Hs. apply IH in Hs as (pre & c & r & t & Hs & Hmin & Hc & ->).
        exists (a :: pre), c, r, t. split; [by rewrite Hs|].
        split; [|done]. intros [|i] Hi; simpl.
        -- intros [k Hk]. destruct k as [|c' r'].
           ++ rewrite app_nil_r in Hk. apply (f_equal length) in Hk.
              apply (f_equal length) in Hs. simpl in Hk.
              rewrite !length_app in Hs. simpl in Hs.
              change (length CODEX_MARKER) with 6%nat in *. lia.
           ++ assert (match_here (a :: s) = Some (c' :: lazy_tail r')) as Hx.
              { apply match_here_Some. eauto. }
              congruence.
        -- apply Hmin. simpl in Hi. lia.
  - intros (pre & c & r & t & Hs & Hmin & Hc & ->).
    apply carve_end_unique in Hc as ->. subst s.
    induction pre as [|a pre IH]; rewrite re_search_eq.
    + assert (match_here ([] ++ CODEX_MARKER ++ c :: r) = Some (c :: lazy_tail r)) as ->;
        [|done].
      apply match_here_Some. eauto.
    + destruct (match_here ((a :: pre) ++ CODEX_MARKER ++ c :: r)) eqn:Hm.
      * apply match_here_Some in Hm as (c' & r' & H & _). exfalso.
        apply (Hmin 0%nat); [simpl; lia|]. rewrite drop_0, H. by eexists.
      * simpl. apply IH. intros i Hi. apply (Hmin (S i)). simpl. lia.
Qed.

Lemma segment_functional (s g g' : pystr) :
  segment s g -> segment s g' -> g = g'.
Proof. rewrite <- !re_search_segment. congruence. Qed.

Lemma segment_nonempty (s g : pystr) : segment s g -> s <> [].
Proof.
  intros (pre & c & r & t & -> & _) H. apply (f_equal length) in H.
  rewrite !length_app in H. change (length CODEX_MARKER) with 6%nat in H.
  simpl in H. lia.
Qed.

Example extract_hello :
  extract_result_from_codex_output (lit "hello") [] = lit "hello".
Proof. reflexivity. Qed.

Example extract_nothing :
  extract_result_from_codex_output [] (lit "exec log only") = NO_OUTPUT.
Proof. reflexivity. Qed.

(** C1 (amended).  The extractor returns the trimmed stdout when that is
    not empty.  Otherwise it looks in stderr for the segment that starts
    right after the first [codex\n] followed by at least one character, and
    that ends before the first [tokens used] found at least one character
    further on, or at the end of stderr when there is none: if the trimmed
    segment is not empty it is returned.  In every other case (no such
    segment, or a segment of white space only) the result is the literal
    [No output from Codex]. *)
Theorem extract_result_carves (stdout stderr : pystr) :
  (strip stdout <> [] ->
   extract_result_from_codex_output stdout stderr = strip stdout) /\
  (strip stdout = [] ->
   forall g, segment stderr g -> strip g <> [] ->
   extract_result_from_codex_output stdout stderr = strip g) /\
  (strip stdout = [] ->
   (forall g, segment stderr g -> strip g = []) ->
   extract_result_from_codex_output stdout stderr = NO_OUTPUT) /\
  NO_OUTPUT = lit "No output from Codex".
Proof.
  unfold extract_result_from_codex_output. repeat split.
  - intros H. apply str_truthy_true in H. rewrite H. simpl. by rewrite H.
  - intros H g Hg Hne. pose proof (segment_nonempty _ _ Hg) as Hs.
    apply re_search_segment in Hg. apply str_truthy_true in Hs, Hne.
    rewrite H, Hs, Hg. simpl. by rewrite Hne.
  - intros H Hall. rewrite H. simpl.
    destruct (str_truthy stderr); [|done].
    destruct (re_search stderr) as [g|] eqn:Hg; [|done].
    apply re_search_segment, Hall in Hg. by rewrite Hg.
Qed.

(** The three cases of [extract_result_carves] on stderr texts:
    a trailer, no trailer, and a segment of white space only. *)
Lemma extract_result_carves_witness :
  extract_result_from_codex_output (lit " ")
    (lit "thinking codex" ++ [NL] ++ lit "42 tokens used: 7") = lit "42"
  /\ extract_result_from_codex_output [] (lit "codex" ++ [NL] ++ lit " tokens used")
     = lit "No output from Codex".
Proof.
  split.
  - refine (proj1 (proj2 (extract_result_carves _ _)) _ (lit "42 ") _ _);
      [reflexivity | | vm_compute; congruence].
    apply re_search_segment. reflexivity.
  - rewrite <- (proj2 (proj2 (proj2 (extract_result_carves [] [])))).
    apply (proj1 (proj2 (proj2 (extract_result_carves _ _)))); [reflexivity |].
    intros g Hg. apply re_search_segment in Hg. vm_compute in Hg.
    injection Hg as <-. reflexivity.
Defined.

(** C1, as the specification words it, fails: stderr holds the leading
    marker and an answer but no trailing marker phrase, so no segment lies
    between the two markers and the fallback text is promised; the
    extractor returns the answer. *)
Lemma extract_without_trailer :
  strip [] = [] /\
  (forall pre seg post,
     lit "codex" ++ [NL] ++ lit "hello"
     <> pre ++ CODEX_MARKER ++ seg ++ TOKENS_USED ++ post) /\
  extract_result_from_codex_output [] (lit "codex" ++ [NL] ++ lit "hello")
  = lit "hello" /\
  lit "hello" <> NO_OUTPUT.
Proof.
  split; [reflexivity|]. split; [|split; [reflexivity | vm_compute; congruence]].
  intros pre seg post H. apply (f_equal length) in H.
  rewrite !length_app in H.
  change (length CODEX_MARKER) with 6%nat in H.
  change (length TOKENS_USED) with 11%nat in H.
  cbn in H. lia.
Qed.

(** ** Arithmetic of the checks *)

Lemma Qltb_lt (a b : Q) : Qltb a b = true <-> (a < b)%Q.
Proof.
  unfold Qltb. rewrite negb_true_iff. split.
  - intros H. apply Qnot_le_lt. intros Hle. apply Qle_bool_iff in Hle. congruence.
  - intros H. destruct (Qle_bool b a) eqn:Hb; [|done].
    apply Qle_bool_iff in Hb. by apply Qlt_not_le in H.
Qed.

Lemma Qltb_ge (a b : Q) : Qltb a b = false <-> ~ (a < b)%Q.
Proof. rewrite <- Qltb_lt. destruct (Qltb a b); split; congruence. Qed.

Lemma py_max_Qmax (a b : Q) : (py_max a b == Qmax a b)%Q.
Proof.
  unfold py_max. destruct (Qltb a b) eqn:H.
  - apply Qltb_lt in H. symmetry. apply Q.max_r. by apply Qlt_le_weak.
  - apply Qltb_ge in H. symmetry. apply Q.max_l. by apply Qnot_lt_le.
Qed.

Lemma py_int_floor (x : Q) : (0 <= x)%Q -> py_int x = Qfloor x.
Proof.
  destruct x as [n d]. unfold py_int, Qfloor, Qle. simpl. intros H.
  apply Z.quot_div_nonneg; lia.
Qed.

Lemma py_int_ceiling (x : Q) : (x <= 0)%Q -> py_int x = (- Qfloor (- x))%Z.
Proof.
  destruct x as [n d]. unfold py_int, Qfloor, Qle. simpl. intros H.
  rewrite <- (Z.opp_involutive n) at 1.
  rewrite Z.quot_opp_l by lia. f_equal. apply Z.quot_div_nonneg; lia.
Qed.

Lemma Qfloor_lub (z : Z) (x : Q) : (inject_Z z <= x)%Q -> z <= Qfloor x.
Proof. intros H. rewrite <- (Qfloor_Z z). by apply Qfloor_resp_le. Qed.

(** [int] is monotone. *)
Lemma py_int_le (x y : Q) : (x <= y)%Q -> py_int x <= py_int y.
Proof.
  intros H. destruct (Qlt_le_dec x 0) as [Hx | Hx], (Qlt_le_dec y 0) as [Hy | Hy].
  - rewrite !py_int_ceiling by (by apply Qlt_le_weak).
    apply Z.opp_le_mono. rewrite !Z.opp_involutive.
    apply Qfloor_resp_le. by apply Qopp_le_compat.
  - rewrite py_int_ceiling by (by apply Qlt_le_weak). rewrite (py_int_floor y) by done.
    assert (0 <= Qfloor (- x)).
    { apply Qfloor_lub. apply Qlt_le_weak in Hx. apply Qopp_le_compat in Hx. done. }
    assert (0 <= Qfloor y) by (by apply Qfloor_lub). lia.
  - exfalso. apply (Qlt_irrefl y). eapply Qlt_le_trans; [done|]. by eapply Qle_trans.
  - rewrite !py_int_floor by done. by apply Qfloor_resp_le.
Qed.

(** A second later, [int] is at least one more (for a time that is not
    negative). *)
Lemma py_int_succ (x y : Q) : (0 <= x)%Q -> (x + 1 <= y)%Q -> py_int x + 1 <= py_int y.
Proof.
  intros Hx Hxy.
  assert (0 <= y)%Q as Hy.
  { eapply Qle_trans; [|exact Hxy]. rewrite <- (Qplus_0_r 0). by apply Qplus_le_compat. }
  rewrite !py_int_floor by done. apply Qfloor_lub.
  eapply Qle_trans; [|exact Hxy]. rewrite inject_Z_plus.
  apply Qplus_le_compat; [apply Qfloor_le | apply Qle_refl].
Qed.

(** ** The Liveness Inspector *)

Section Inspector.
Context (E : Env) (tid meta_file stdout_file stderr_file : pystr).
Context (Hpaths : task_paths E tid meta_file stdout_file stderr_file).

Lemma check_not_found (w : World) :
  metas w !! meta_file = None ->
  stat_fails E meta_file = false ->
  check_task_status E tid w
  = (Ok (NotFound (lit "Task " ++ tid ++ lit " not found")), w).
Proof.
  destruct Hpaths as (Hm & _). intros Hnone Hstat.
  unfold check_task_status, task_file, bind, lift, get_world, path_exists.
  rewrite Hm, Hnone, Hstat. reflexivity.
Qed.

(** A lookup of the metadata artifact that fails is raised, and nothing
    is touched. *)
Lemma check_lookup_fails (w : World) :
  metas w !! meta_file = None ->
  stat_fails E meta_file = true ->
  check_task_status E tid w = (Raise OSError, w).
Proof.
  destruct Hpaths as (Hm & _). intros Hnone Hstat.
  unfold check_task_status, task_file, bind, lift, get_world, path_exists.
  rewrite Hm, Hnone, Hstat. reflexivity.
Qed.

Lemma check_found (w : World) (md : metadata_record) :
  metas w !! meta_file = Some md ->
  check_task_status E tid w =
  let out := captures w !! stdout_file in
  let err := captures w !! stderr_file in
  let t0 := time_at E (ticks w) in
  let t1 := time_at E (S (ticks w)) in
  match path_exists E stdout_file out, path_exists E stderr_file err with
  | Raise e, _ => (Raise e, w)
  | Ok _, Raise e => (Raise e, w)
  | Ok stdout_exists, Ok stderr_exists =>
      if stdout_exists || stderr_exists then
        if Qltb (t0 - py_max (stamp out) (stamp err)) 10 then
          (Ok (Running tid (py_int (t1 - started_at md)) (command md)), advance 2 w)
        else
          match read_text E out, read_text E err with
          | Raise e, _ => (Raise e, advance 1 w)
          | Ok _, Raise e => (Raise e, advance 1 w)
          | Ok stdout, Ok stderr =>
              (Ok (Completed tid
                     (Extractor.extract_result_from_codex_output stdout stderr)
                     (py_int (t1 - started_at md))),
               advance 3 (with_meta meta_file (mark_completed md t1) w))
          end
      else
        (Ok (Completed tid
               (Extractor.extract_result_from_codex_output [] [])
               (py_int (t0 - started_at md))),
         advance 2 (with_meta meta_file (mark_completed md t0) w))
  end.
Proof.
  destruct Hpaths as (Hm & Ho & He). intros Hmd.
  unfold check_task_status, task_file, bind, lift, get_world.
  rewrite Hm, Hmd, Ho, He. cbv zeta. unfold stamp, path_exists, read_text.
  destruct w as [cs ms n out]. cbn [captures metas ticks sent].
  destruct (cs !! stdout_file) as [a|], (cs !! stderr_file) as [b|];
    try destruct (stat_fails E stdout_file);
    try destruct (stat_fails E stderr_file);
    cbn [orb]; unfold time_time, tick, bind, ret, dump_meta; cbn;
    try reflexivity;
    destruct (Qltb _ _); try reflexivity;
    try destruct (decode_text E (content a));
    try destruct (decode_text E (content b)); reflexivity.
Qed.

End Inspector.

Section InspectorTheorems.
Context (E : Env) (tid meta_file stdout_file stderr_file : pystr).
Context (Hpaths : task_paths E tid meta_file stdout_file stderr_file).

Lemma advance_metas n w : metas (advance n w) = metas w.
Proof. reflexivity. Qed.

(** What [mark_completed] writes, key by key. *)
Lemma mark_completed_keys (md : metadata_record) (now : Q) :
  status (mark_completed md now) = lit "completed" /\
  completed_at (mark_completed md now) = Some now /\
  started_at (mark_completed md now) = started_at md /\
  task_id (mark_completed md now) = task_id md /\
  pid (mark_completed md now) = pid md /\
  command (mark_completed md now) = command md.
Proof. repeat split. Qed.

(** When no existing capture artifact is stamped before the epoch, the
    latest timestamp the check compares with is the maximum over the
    artifacts that exist. *)
Lemma latest_since_epoch (out err : option capture) (m : Q) :
  latest_existing out err = Some m ->
  (forall c, out = Some c \/ err = Some c -> (0 <= mtime c)%Q) ->
  (Qmax (stamp out) (stamp err) == m)%Q.
Proof.
  destruct out as [a|], err as [b|]; simpl; intros [= <-] Hpos.
  - reflexivity.
  - apply Q.max_l, Hpos. by left.
  - apply Q.max_r, Hpos. by right.
Qed.

Lemma Qltb_proper (a b c : Q) : (a == b)%Q -> Qltb a c = Qltb b c.
Proof.
  intros H. destruct (Qltb b c) eqn:Hb.
  - apply Qltb_lt. apply Qltb_lt in Hb. by rewrite H.
  - apply Qltb_ge. apply Qltb_ge in Hb. by rewrite H.
Qed.

(** C2 (amended).  The metadata artifact is there, at least one capture
    artifact is there, [exists] answers for both, and no capture is stamped
    before the epoch; [latest] is the maximum last-modified timestamp of the
    capture artifacts that exist.  Then the task is [running] exactly when
    the current time minus [latest] is strictly below 10 seconds.  It is
    [completed] exactly when it is not running and the captures that exist
    can be read as text; when one of them cannot, the check raises and
    leaves the metadata as it was. *)
Theorem liveness_threshold (w : World) (md : metadata_record) (latest : Q) :
  metas w !! meta_file = Some md ->
  answers E (captures w) stdout_file ->
  answers E (captures w) stderr_file ->
  latest_existing (captures w !! stdout_file) (captures w !! stderr_file)
  = Some latest ->
  (forall c, captures w !! stdout_file = Some c \/ captures w !! stderr_file = Some c ->
             (0 <= mtime c)%Q) ->
  ((exists el w',
       check_task_status E tid w = (Ok (Running tid el (command md)), w'))
   <-> (time_at E (ticks w) - latest < 10)%Q) /\
  ((exists r el w', check_task_status E tid w = (Ok (Completed tid r el), w'))
   <-> ~ (time_at E (ticks w) - latest < 10)%Q /\
       readable E (captures w !! stdout_file) /\
       readable E (captures w !! stderr_file)) /\
  (~ (time_at E (ticks w) - latest < 10)%Q ->
   ~ (readable E (captures w !! stdout_file) /\
      readable E (captures w !! stderr_file)) ->
   exists e w', check_task_status E tid w = (Raise e, w') /\ metas w' = metas w).
Proof.
  intros Hmd Hao Hae Hlatest Hpos.
  rewrite (check_found E tid _ _ _ Hpaths w md Hmd). cbv zeta.
  pose proof (latest_since_epoch _ _ _ Hlatest Hpos) as Hmax.
  rewrite <- py_max_Qmax in Hmax.
  rewrite (Qltb_proper _ (time_at E (ticks w) - latest) 10)
    by (by rewrite Hmax).
  assert (exists a b, path_exists E stdout_file (captures w !! stdout_file) = Ok a /\
                      path_exists E stderr_file (captures w !! stderr_file) = Ok b /\
                      a || b = true) as (a & b & -> & -> & ->).
  { unfold path_exists, answers in *.
    destruct (captures w !! stdout_file) as [x|] eqn:Ho,
             (captures w !! stderr_file) as [y|] eqn:He; try discriminate Hlatest.
    - by eexists _, _.
    - destruct Hae as [[? [=]] | ->]. by eexists _, _.
    - destruct Hao as [[? [=]] | ->]. by eexists _, _. }
  unfold readable.
  destruct (Qltb _ 10) eqn:Hlt.
  - apply Qltb_lt in Hlt. split; [|split].
    + split; [done | eauto].
    + split; [intros (r & el & w' & [=]) | by intros [? _]].
    + done.
  - apply Qltb_ge in Hlt.
    destruct (read_text E (captures w !! stdout_file)) as [so|eo],
             (read_text E (captures w !! stderr_file)) as [se|ee];
      (split; [|split]);
      try (split; [by intros (el & w' & [=]) | done]).
    + split; [eauto 10 | eauto].
    + intros _ H. destruct H. eauto.
    + split; [by intros (r & el & w' & [=]) | by intros (_ & _ & ? & [=])].
    + intros _ _. by eexists _, _.
    + split; [by intros (r & el & w' & [=]) | by intros (_ & (? & [=]) & _)].
    + intros _ _. by eexists _, _.
    + split; [by intros (r & el & w' & [=]) | by intros (_ & (? & [=]) & _)].
    + intros _ _. by eexists _, _.
Qed.


(** C4.  A check that classifies the task [completed] rewrites the record:
    its status is [completed] and its completion timestamp is a clock
    reading [now] of that very check, whatever status and completion
    timestamp the record held before; the other keys are kept, and the
    check reports [int(now - started_at)].  So on a clock that does not run
    backwards the next check of the task is again [completed], stores its
    own later reading, and reports an elapsed time that is at least the
    previous one, and larger when a second or more has passed. *)
Theorem completed_rewrites_timestamp (w w' : World) (r : pystr) (el : Z) :
  check_task_status E tid w = (Ok (Completed tid r el), w') ->
  exists md md' n,
    metas w !! meta_file = Some md /\
    (ticks w <= n < ticks w')%nat /\
    metas w' !! meta_file = Some md' /\
    status md' = lit "completed" /\
    completed_at md' = Some (time_at E n) /\
    started_at md' = started_at md /\
    task_id md' = task_id md /\ pid md' = pid md /\ command md' = command md /\
    el = py_int (time_at E n - started_at md) /\
    ((forall i j, (i <= j)%nat -> (time_at E i <= time_at E j)%Q) ->
     exists md'' n' el' w'',
       check_task_status E tid w' = (Ok (Completed tid r el'), w'') /\
       (n < n')%nat /\
       (ticks w' <= n' < ticks w'')%nat /\
       metas w'' !! meta_file = Some md'' /\
       status md'' = lit "completed" /\
       completed_at md'' = Some (time_at E n') /\
       started_at md'' = started_at md /\
       el' = py_int (time_at E n' - started_at md) /\
       el <= el' /\
       ((0 <= time_at E n - started_at md)%Q ->
        (time_at E n + 1 <= time_at E n')%Q -> el < el')).
Proof.
  intros Hcheck.
  destruct (metas w !! meta_file) as [md|] eqn:Hmd.
  2: { destruct (stat_fails E meta_file) eqn:Hst.
       - rewrite (check_lookup_fails E tid _ _ _ Hpaths w Hmd Hst) in Hcheck.
         discriminate.
       - rewrite (check_not_found E tid _ _ _ Hpaths w Hmd Hst) in Hcheck.
         discriminate. }
  exists md.
  rewrite (check_found E tid _ _ _ Hpaths w md Hmd) in Hcheck. cbv zeta in Hcheck.
  assert (forall x y z : Q, (x <= y)%Q -> (x - z <= y - z)%Q) as Hsub.
  { intros x y z H. apply Qplus_le_compat; [done | apply Qle_refl]. }
  assert (forall x y z : Q, (x + 1 <= y)%Q -> (x - z + 1 <= y - z)%Q) as Hsub1.
  { intros x y z H. unfold Qminus. rewrite <- Qplus_assoc, (Qplus_comm (- z) 1), Qplus_assoc.
    apply Qplus_le_compat; [done | apply Qle_refl]. }
  destruct (path_exists E stdout_file (captures w !! stdout_file)) as [a|] eqn:Hpa;
    [|discriminate].
  destruct (path_exists E stderr_file (captures w !! stderr_file)) as [b|] eqn:Hpb;
    [|discriminate].
  destruct (a || b) eqn:Hex.
  - destruct (Qltb _ 10) eqn:Hlt; [discriminate|].
    destruct (read_text E (captures w !! stdout_file)) as [so|] eqn:Hro; [|discriminate].
    destruct (read_text E (captures w !! stderr_file)) as [se|] eqn:Hre; [|discriminate].
    injection Hcheck as <- <- <-.
    exists (mark_completed md (time_at E (S (ticks w)))), (S (ticks w)).
    split; [done|]. split; [simpl; lia|]. split; [apply lookup_insert_eq|].
    do 6 (split; [reflexivity|]). split; [done|]. intros Hmono.
    set (w1 := advance 3 (with_meta meta_file (mark_completed md (time_at E (S (ticks w)))) w)).
    assert (metas w1 !! meta_file = Some (mark_completed md (time_at E (S (ticks w))))) as Hmd1
      by apply lookup_insert_eq.
    rewrite (check_found E tid _ _ _ Hpaths w1 _ Hmd1). cbv zeta.
    change (captures w1) with (captures w). rewrite Hpa, Hpb, Hex, Hro, Hre.
    assert (Qltb (time_at E (ticks w1)
                  - py_max (stamp (captures w !! stdout_file))
                           (stamp (captures w !! stderr_file))) 10 = false) as ->.
    { apply Qltb_ge. apply Qltb_ge in Hlt. intros H. apply Hlt.
      eapply Qle_lt_trans; [|exact H]. apply Hsub, Hmono. simpl. lia. }
    exists (mark_completed (mark_completed md (time_at E (S (ticks w))))
              (time_at E (S (ticks w1)))), (S (ticks w1)).
    eexists _, _. split; [reflexivity|].
    split; [simpl; lia|]. split; [simpl; lia|]. split.
    { rewrite advance_metas. apply lookup_insert_eq. }
    do 4 (split; [reflexivity|]). split.
    + apply py_int_le, Hsub, Hmono. simpl. lia.
    + intros H0 H1. simpl started_at.
      pose proof (py_int_succ _ _ H0 (Hsub1 _ _ (started_at md) H1)). lia.
  - injection Hcheck as <- <- <-.
    exists (mark_completed md (time_at E (ticks w))), (ticks w).
    split; [done|]. split; [simpl; lia|]. split; [apply lookup_insert_eq|].
    do 6 (split; [reflexivity|]). split; [done|]. intros Hmono.
    set (w1 := advance 2 (with_meta meta_file (mark_completed md (time_at E (ticks w))) w)).
    assert (metas w1 !! meta_file = Some (mark_completed md (time_at E (ticks w)))) as Hmd1
      by apply lookup_insert_eq.
    rewrite (check_found E tid _ _ _ Hpaths w1 _ Hmd1). cbv zeta.
    change (captures w1) with (captures w). rewrite Hpa, Hpb, Hex.
    exists (mark_completed (mark_completed md (time_at E (ticks w)))
              (time_at E (ticks w1))), (ticks w1).
    eexists _, _. split; [reflexivity|].
    split; [simpl; lia|]. split; [simpl; lia|]. split.
    { rewrite advance_metas. apply lookup_insert_eq. }
    do 4 (split; [reflexivity|]). split.
    + apply py_int_le, Hsub, Hmono. simpl. lia.
    + intros H0 H1. simpl started_at.
      pose proof (py_int_succ _ _ H0 (Hsub1 _ _ (started_at md) H1)). lia.
Qed.

End InspectorTheorems.

Lemma sample_paths clock child :
  task_paths (sample_env clock child) TID TID_META TID_STDOUT TID_STDERR.
Proof. repeat split. Qed.

Lemma ticking_mono t0 i j : (i <= j)%nat -> (ticking t0 i <= ticking t0 j)%Q.
Proof. intros H. unfold ticking. rewrite <- Zle_Qle. lia. Qed.

Lemma w_task_stamps (w : World) (c : capture) :
  captures w = captures w_task ->
  captures w !! TID_STDOUT = Some c \/ captures w !! TID_STDERR = Some c ->
  (0 <= mtime c)%Q.
Proof.
  intros -> [H | H]; vm_compute in H; [|discriminate].
  injection H as <-. done.
Qed.

(** [liveness_threshold] at the sample task, whose only capture was last
    written at time 1000: checked at time 1003 it is running, checked at
    time 2000 it is completed. *)
Lemma liveness_threshold_witness :
  latest_existing (captures w_task !! TID_STDOUT) (captures w_task !! TID_STDERR)
  = Some 1000%Q /\
  (exists el w',
     check_task_status (sample_env (ticking 1003) RunTimeoutExpired) TID w_task
     = (Ok (Running TID el (lit "codex exec hi")), w')) /\
  (exists r el w',
     check_task_status (sample_env (ticking 2000) RunTimeoutExpired) TID w_task
     = (Ok (Completed TID r el), w')).
Proof.
  split; [reflexivity|]. split.
  - apply (proj2 (proj1 (liveness_threshold
                    (sample_env (ticking 1003) RunTimeoutExpired)
                    TID TID_META TID_STDOUT TID_STDERR (sample_paths _ _)
                    w_task TID_RECORD 1000%Q
                    eq_refl (or_introl (ex_intro _ _ eq_refl)) (or_intror eq_refl)
                    eq_refl (fun c => w_task_stamps w_task c eq_refl)))).
    vm_compute. reflexivity.
  - apply (proj2 (proj1 (proj2 (liveness_threshold
                    (sample_env (ticking 2000) RunTimeoutExpired)
                    TID TID_META TID_STDOUT TID_STDERR (sample_paths _ _)
                    w_task TID_RECORD 1000%Q
                    eq_refl (or_introl (ex_intro _ _ eq_refl)) (or_intror eq_refl)
                    eq_refl (fun c => w_task_stamps w_task c eq_refl))))).
    split; [vm_compute; discriminate|].
    split; eexists; vm_compute; reflexivity.
Defined.

(** C2, as the specification words it, fails when a capture artifact
    cannot be decoded.  The only capture of the task holds the bytes FF FE
    and was last written at time 1000; at time 2000 the interval is not
    below 10 seconds, which would make the task [completed]; the check
    raises [UnicodeDecodeError] out of [read_text] and classifies nothing,
    and the record still says [running]. *)
Lemma undecodable_capture_raises :
  metas w_binary !! TID_META = Some TID_RECORD /\
  captures w_binary !! TID_STDOUT = Some (Capture [255; 254]%N 1000) /\
  captures w_binary !! TID_STDERR = None /\
  utf8_decode [255; 254]%N = None /\
  latest_existing (captures w_binary !! TID_STDOUT) (captures w_binary !! TID_STDERR)
  = Some 1000%Q /\
  ~ (time_at sample (ticks w_binary) - 1000 < 10)%Q /\
  check_task_status sample TID w_binary = (Raise UnicodeDecodeError, advance 1 w_binary) /\
  metas (advance 1 w_binary) !! TID_META = Some TID_RECORD /\
  status TID_RECORD = lit "running".
Proof.
  do 5 (split; [reflexivity|]). split; [|repeat split].
  intros H. vm_compute in H. discriminate.
Qed.


(** [completed_rewrites_timestamp] at the sample task, checked a thousand
    seconds after its last write: the check reports 1006 seconds. *)
Lemma completed_rewrites_timestamp_witness :
  check_task_status sample TID w_task
  = (Ok (Completed TID (lit "hi") 1006), snd (check_task_status sample TID w_task)) /\
  exists md md' n,
    metas w_task !! TID_META = Some md /\
    (ticks w_task <= n < ticks (snd (check_task_status sample TID w_task)))%nat /\
    metas (snd (check_task_status sample TID w_task)) !! TID_META = Some md' /\
    status md' = lit "completed" /\
    completed_at md' = Some (time_at sample n) /\
    started_at md' = started_at md /\
    task_id md' = task_id md /\ pid md' = pid md /\ command md' = command md /\
    1006 = py_int (time_at sample n - started_at md) /\
    ((forall i j, (i <= j)%nat -> (time_at sample i <= time_at sample j)%Q) ->
     exists md'' n' el' w'',
       check_task_status sample TID (snd (check_task_status sample TID w_task))
       = (Ok (Completed TID (lit "hi") el'), w'') /\
       (n < n')%nat /\
       (ticks (snd (check_task_status sample TID w_task)) <= n' < ticks w'')%nat /\
       metas w'' !! TID_META = Some md'' /\
       status md'' = lit "completed" /\
       completed_at md'' = Some (time_at sample n') /\
       started_at md'' = started_at md /\
       el' = py_int (time_at sample n' - started_at md) /\
       1006 <= el' /\
       ((0 <= time_at sample n - started_at md)%Q ->
        (time_at sample n + 1 <= time_at sample n')%Q -> 1006 < el')).
Proof.
  split; [vm_compute; reflexivity|].
  refine (completed_rewrites_timestamp sample
            TID TID_META TID_STDOUT TID_STDERR (sample_paths _ _) w_task
            (snd (check_task_status sample TID w_task))
            (lit "hi") 1006 _).
  vm_compute. reflexivity.
Defined.
(** ** The dispatcher *)

Section Dispatcher.
Context (E : Env).

Lemma py_get_params (request method params : json) :
  py_get request "method" JNull = Ok method ->
  exists request_id params,
    py_get request "id" JNull = Ok request_id /\
    py_get request "params" (obj []) = Ok params.
Proof. destruct request; try discriminate. intros _. eexists _, _. eauto. Qed.

(** The two shapes of a response, as they print: a text response has the
    protocol version, the id and a result with one text item, and no
    error; an error response has the protocol version, the id and an error
    with a code and a message, and no result. *)
Lemma text_result_is_text (request_id : json) (text : pystr) :
  is_text_response request_id text (text_result request_id text).
Proof. repeat split. Qed.

Lemma error_response_is_error (request_id : json) (code : Z) (message : pystr) :
  is_error_response request_id code message (error_response request_id code message).
Proof. repeat split. Qed.

Lemma is_str_other (v : json) (s : pystr) : v <> JStr s -> is_str v s = false.
Proof.
  intros H. destruct (is_str v s) eqn:Hs; [|done]. by apply is_str_spec in Hs.
Qed.

Lemma handle_unknown_method (request method request_id : json) (w : World) :
  py_get request "method" JNull = Ok method ->
  py_get request "id" JNull = Ok request_id ->
  method <> js "initialize" ->
  method <> js "tools/list" ->
  method <> js "tools/call" ->
  handle_request E request w
  = (Ok tt, sending w (error_response request_id (-32601)
                         (lit "Method not found: " ++ fstr E method))).
Proof.
  intros Hm Hid H1 H2 H3.
  apply is_str_other in H1, H2, H3.
  destruct (py_get_params _ _ JNull Hm) as (rid & params & Hid' & Hp).
  unfold handle_request, bind, lift. rewrite Hm, Hid, Hp, H1, H2, H3. reflexivity.
Qed.

Ltac enter_tool_call H :=
  let params := fresh "params" in
  let Hm := fresh "Hm" in
  let Hi := fresh "Hi" in
  let Hp := fresh "Hp" in
  let Hn := fresh "Hn" in
  let Ha := fresh "Ha" in
  destruct H as (params & Hm & Hi & Hp & Hn & Ha);
  unfold handle_request, bind, lift;
  rewrite Hm, Hi, Hp;
  change (is_str (js "tools/call") (lit "initialize")) with false;
  change (is_str (js "tools/call") (lit "tools/list")) with false;
  change (is_str (js "tools/call") (lit "tools/call")) with true;
  cbv iota; rewrite Hn, Ha.

Lemma handle_unknown_tool (request request_id tool_name arguments : json)
    (w : World) :
  is_tool_call request request_id tool_name arguments ->
  tool_name <> js "codex_execute" ->
  tool_name <> js "codex_execute_async" ->
  tool_name <> js "codex_check_result" ->
  handle_request E request w
  = (Ok tt, sending w (error_response request_id (-32601)
                         (lit "Unknown tool: " ++ fstr E tool_name))).
Proof.
  intros H H1 H2 H3. apply is_str_other in H1, H2, H3.
  enter_tool_call H. rewrite H1, H2, H3. reflexivity.
Qed.

(** The guard of [codex_check_result]: a falsy [task_id] (absent, [None],
    the empty string, 0, ...) is answered with invalid params. *)
Lemma handle_check_without_id (request request_id arguments task_id : json)
    (w : World) :
  is_tool_call request request_id (js "codex_check_result") arguments ->
  py_get arguments "task_id" JNull = Ok task_id ->
  truthy task_id = false ->
  handle_request E request w
  = (Ok tt, sending w (error_response request_id (-32602)
                         (lit "task_id is required"))).
Proof.
  intros H Hid Hf. enter_tool_call H.
  change (is_str (js "codex_check_result") (lit "codex_execute")) with false.
  change (is_str (js "codex_check_result") (lit "codex_execute_async")) with false.
  change (is_str (js "codex_check_result") (lit "codex_check_result")) with true.
  cbv iota. rewrite Hid, Hf. reflexivity.
Qed.

Lemma handle_check (request request_id arguments : json) (task_id : pystr)
    (w : World) :
  is_tool_call request request_id (js "codex_check_result") arguments ->
  py_get arguments "task_id" JNull = Ok (JStr task_id) ->
  task_id <> [] ->
  handle_request E request w
  = match check_task_status E task_id w with
    | (Ok status_info, w') =>
        (Ok tt, sending w' (text_result request_id (status_text task_id status_info)))
    | (Raise e, w') => (Raise e, w')
    end.
Proof.
  intros H Hid Hne. enter_tool_call H.
  change (is_str (js "codex_check_result") (lit "codex_execute")) with false.
  change (is_str (js "codex_check_result") (lit "codex_execute_async")) with false.
  change (is_str (js "codex_check_result") (lit "codex_check_result")) with true.
  cbv iota. rewrite Hid. destruct task_id as [|c t]; [done|]. cbn [truthy str_truthy negb].
  destruct (check_task_status E (c :: t) w) as [[info | e] w']; reflexivity.
Qed.

Lemma handle_execute (request request_id arguments : json) (w : World) :
  is_tool_call request request_id (js "codex_execute") arguments ->
  handle_request E request w
  = match arguments with
    | JObj _ =>
        match call_codex_sync E
                (default (js "exec") (member "subcommand" arguments))
                (default JNull (member "prompt" arguments))
                (default (JArr []) (member "args" arguments))
                (default JNull (member "timeout" arguments)) w with
        | (Ok result, w') => (Ok tt, sending w' (text_result request_id result))
        | (Raise e, w') => (Raise e, w')
        end
    | _ => (Raise AttributeError, w)
    end.
Proof.
  intros H. enter_tool_call H.
  change (is_str (js "codex_execute") (lit "codex_execute")) with true.
  cbv iota. destruct arguments; reflexivity.
Qed.

Lemma call_codex_sync_sent (subcommand prompt args timeout : json)
    (w w' : World) (r : res pystr) :
  call_codex_sync E subcommand prompt args timeout w = (r, w') -> sent w' = sent w.
Proof.
  unfold call_codex_sync, bind, lift, tick, ret.
  destruct (build_cmd subcommand prompt args) as [cmd | e].
  - destruct (run_at E (ticks w) cmd timeout); intros [= <- <-]; reflexivity.
  - intros [= <- <-]. reflexivity.
Qed.

(** C3 (amended).  When the lookup of the metadata artifact of a task id
    says that there is none, [check_task_status] reports [not_found] with
    the message [Task <id> not found], for every string, the empty one
    included, and leaves the task directory as it is.  The
    [codex_check_result] tool answers a non-empty string with a successful
    text response that carries this message, and the empty string with the
    error -32602 [task_id is required].  (The id must name a path: pathlib
    has to yield the metadata path.) *)
Theorem check_result_not_found (task_id meta_file : pystr) (w : World) :
  with_suffix E task_id (lit ".meta") = Some meta_file ->
  missing E (metas w) meta_file ->
  check_task_status E task_id w
  = (Ok (NotFound (lit "Task " ++ task_id ++ lit " not found")), w) /\
  (forall request request_id arguments,
     is_tool_call request request_id (js "codex_check_result") arguments ->
     py_get arguments "task_id" JNull = Ok (JStr task_id) ->
     exists response,
       handle_request E request w = (Ok tt, sending w response) /\
       (task_id <> [] ->
        is_text_response request_id
          (lit "Task " ++ task_id ++ lit " not found") response) /\
       (task_id = [] ->
        is_error_response request_id (-32602) (lit "task_id is required")
          response)).
Proof.
  intros Hm [Hnone Hstat].
  assert (check_task_status E task_id w
          = (Ok (NotFound (lit "Task " ++ task_id ++ lit " not found")), w)) as Hc.
  { unfold check_task_status, task_file, bind, lift, get_world, path_exists.
    rewrite Hm, Hnone, Hstat. reflexivity. }
  split; [exact Hc|].
  intros request request_id arguments Hcall Hid.
  destruct (decide (task_id = [])) as [-> | Hne].
  - eexists. split; [by apply (handle_check_without_id _ _ _ _ w Hcall Hid)|].
    split; [done|]. intros _. apply error_response_is_error.
  - eexists. split.
    + rewrite (handle_check _ _ _ _ _ Hcall Hid Hne), Hc. reflexivity.
    + split; [|done]. intros _. apply text_result_is_text.
Qed.

(** C5 (amended).  A blank line is skipped without a response.  A line
    that is not blank after trimming and on which [json.loads] raises
    [JSONDecodeError] is answered by exactly one response, an error with id
    [null], code -32700 and the message [Parse error: ] followed by the
    text of the exception, and the loop goes on with the next line. *)
Theorem parse_error_response (line : pystr) (rest : list pystr) (w : World) :
  (strip line = [] -> main E (line :: rest) w = main E rest w) /\
  (forall str_e,
     strip line <> [] ->
     json_loads E (strip line) = inl str_e ->
     exists response,
       main E (line :: rest) w = main E rest (sending w response) /\
       main E [line] w = (Ok tt, sending w response) /\
       sent (sending w response) = sent w ++ [response] /\
       is_error_response JNull (-32700) (lit "Parse error: " ++ str_e) response).
Proof.
  split.
  - intros H. cbn [main]. rewrite H. reflexivity.
  - intros str_e Hne Hbad. apply str_truthy_true in Hne.
    eexists. split; [|split; [|split]].
    + cbn [main]. rewrite Hne, Hbad. reflexivity.
    + cbn [main]. rewrite Hne, Hbad. reflexivity.
    + reflexivity.
    + apply error_response_is_error.
Qed.

(** A blank line is skipped without a response. *)
Lemma blank_line_skipped (line : pystr) (rest : list pystr) (w : World) :
  strip line = [] -> main E (line :: rest) w = main E rest w.
Proof. intros H. cbn [main]. rewrite H. reflexivity. Qed.

(** A line that [json.loads] accepts is handed to [handle_request]: no
    parse error is printed for it, whatever it is. *)
Lemma parsed_line_is_handled (line : pystr) (request : json)
    (rest : list pystr) (w : World) :
  strip line <> [] ->
  json_loads E (strip line) = inr request ->
  main E (line :: rest) w
  = match handle_request E request w with
    | (Ok _, w') => main E rest w'
    | (Raise e, w') => (Raise e, w')
    end.
Proof.
  intros Hne Hok. apply str_truthy_true in Hne.
  cbn [main]. rewrite Hne, Hok. cbn [negb]. unfold bind.
  destruct (handle_request E request w) as [[[]|e] w']; reflexivity.
Qed.

(** C6 (amended).  A request (a JSON object) whose method is none of
    [initialize], [tools/list], [tools/call], and a [tools/call] request
    whose [params] is an object, or absent, and whose tool name is none of
    the three tools, are answered by an error with code -32601 that carries
    the id of the request.  The message names the method, or the tool, as
    an f-string prints it: a string as it is, a missing one as [None]. *)
Theorem unknown_method_or_tool (request request_id : json) (w : World) :
  py_get request "id" JNull = Ok request_id ->
  (forall method,
     py_get request "method" JNull = Ok method ->
     method <> js "initialize" ->
     method <> js "tools/list" ->
     method <> js "tools/call" ->
     exists response name,
       handle_request E request w = (Ok tt, sending w response) /\
       is_error_response request_id (-32601)
         (lit "Method not found: " ++ name) response /\
       (forall s, method = JStr s -> name = s) /\
       (method = JNull -> name = lit "None")) /\
  (forall tool_name arguments,
     is_tool_call request request_id tool_name arguments ->
     tool_name <> js "codex_execute" ->
     tool_name <> js "codex_execute_async" ->
     tool_name <> js "codex_check_result" ->
     exists response name,
       handle_request E request w = (Ok tt, sending w response) /\
       is_error_response request_id (-32601)
         (lit "Unknown tool: " ++ name) response /\
       (forall s, tool_name = JStr s -> name = s) /\
       (tool_name = JNull -> name = lit "None")).
Proof.
  intros Hid. split.
  - intros method Hm H1 H2 H3. exists (error_response request_id (-32601)
                                   (lit "Method not found: " ++ fstr E method)).
    exists (fstr E method). split; [by apply handle_unknown_method|].
    split; [apply error_response_is_error|].
    split; [by intros s -> | by intros ->].
  - intros tool_name arguments Hcall H1 H2 H3.
    exists (error_response request_id (-32601)
              (lit "Unknown tool: " ++ fstr E tool_name)).
    exists (fstr E tool_name). split; [by eapply handle_unknown_tool|].
    split; [apply error_response_is_error|].
    split; [by intros s -> | by intros ->].
Qed.

(** A [tools/call] request whose [params] is not an object has no [get]:
    the dispatcher raises and prints nothing. *)
Lemma handle_call_without_object (request params : json) (w : World) :
  py_get request "method" JNull = Ok (js "tools/call") ->
  py_get request "params" (obj []) = Ok params ->
  (forall kvs, params <> JObj kvs) ->
  handle_request E request w = (Raise AttributeError, w).
Proof.
  intros Hm Hp Hno.
  destruct (py_get_params _ _ JNull Hm) as (rid & params' & Hid & Hp').
  unfold handle_request, bind, lift. rewrite Hm, Hid, Hp.
  change (is_str (js "tools/call") (lit "initialize")) with false.
  change (is_str (js "tools/call") (lit "tools/list")) with false.
  change (is_str (js "tools/call") (lit "tools/call")) with true.
  cbv iota. destruct params; try reflexivity. by destruct (Hno kvs).
Qed.

(** C7.  A [codex_execute] call never prints an error object: whatever the
    call does, it prints nothing or one successful text response with the
    id of the request.  When the run times out the Synchronous Executor
    returns [Error: Codex execution timed out], when it fails with another
    exception [e] it returns [Error calling Codex: ] followed by [str(e)],
    and the dispatcher sends that text as a successful text response. *)
Theorem sync_failures_are_text (request request_id arguments : json) (w : World) :
  is_tool_call request request_id (js "codex_execute") arguments ->
  (forall out w',
     handle_request E request w = (out, w') ->
     sent w' = sent w \/
     exists text response,
       sent w' = sent w ++ [response] /\
       is_text_response request_id text response) /\
  (forall subcommand prompt args timeout cmd,
     py_get arguments "subcommand" (js "exec") = Ok subcommand ->
     py_get arguments "prompt" JNull = Ok prompt ->
     py_get arguments "args" (JArr []) = Ok args ->
     py_get arguments "timeout" JNull = Ok timeout ->
     build_cmd subcommand prompt args = Ok cmd ->
     exists text response,
       call_codex_sync E subcommand prompt args timeout w = (Ok text, advance 1 w) /\
       handle_request E request w = (Ok tt, sending (advance 1 w) response) /\
       is_text_response request_id text response /\
       (run_at E (ticks w) cmd timeout = RunTimeoutExpired ->
        text = lit "Error: Codex execution timed out") /\
       (forall str_e,
          run_at E (ticks w) cmd timeout = RunException str_e ->
          text = lit "Error calling Codex: " ++ str_e)).
Proof.
  intros Hcall. pose proof (handle_execute _ _ _ w Hcall) as Hh. split.
  - intros out w'. rewrite Hh. destruct arguments; try (intros [= <- <-]; by left).
    destruct (call_codex_sync _ _ _ _ _ w) as [[text | e] w1] eqn:Hs;
      apply call_codex_sync_sent in Hs; intros [= <- <-].
    + right. exists text. eexists. split; [simpl; by rewrite Hs|].
      apply text_result_is_text.
    + by left.
  - intros subcommand prompt args timeout cmd Hsub Hprompt Hargs Htimeout Hcmd.
    destruct arguments as [| | | | | |akvs| |]; try discriminate.
    injection Hsub as <-. injection Hprompt as <-. injection Hargs as <-.
    injection Htimeout as <-. cbn [member] in Hh.
    set (timeout := default JNull (assoc (lit "timeout") akvs)) in *.
    assert (forall text,
              match run_at E (ticks w) cmd timeout with
              | RunCompleted stdout stderr =>
                  Extractor.extract_result_from_codex_output stdout stderr
              | RunTimeoutExpired => lit "Error: Codex execution timed out"
              | RunException str_e => lit "Error calling Codex: " ++ str_e
              end = text ->
              call_codex_sync E
                (default (js "exec") (assoc (lit "subcommand") akvs))
                (default JNull (assoc (lit "prompt") akvs))
                (default (JArr []) (assoc (lit "args") akvs)) timeout w
              = (Ok text, advance 1 w)) as Hsync.
    { intros text <-. unfold call_codex_sync, bind, lift, tick, ret.
      rewrite Hcmd. destruct (run_at E (ticks w) cmd timeout); reflexivity. }
    eexists _, _. split; [by apply Hsync|]. split.
    + rewrite Hh. by erewrite Hsync.
    + split; [apply text_result_is_text|].
      split; [by intros -> | by intros str_e ->].
Qed.

(** C8.  When [start_codex_async] returns a task id, the world it leaves
    holds the stdout capture, the stderr capture and the metadata record of
    that id, and the record has status [running], no completion timestamp,
    and as [started_at] a clock reading taken during the launch. *)
Theorem launch_creates_artifacts (subcommand prompt args : json)
    (w w' : World) (tid : pystr) :
  start_codex_async E subcommand prompt args w = (Ok tid, w') ->
  exists meta_file stdout_file stderr_file md n,
    task_paths E tid meta_file stdout_file stderr_file /\
    is_Some (captures w' !! stdout_file) /\
    is_Some (captures w' !! stderr_file) /\
    metas w' !! meta_file = Some md /\
    task_id md = tid /\
    status md = lit "running" /\
    completed_at md = None /\
    started_at md = time_at E n /\
    (ticks w <= n < ticks w')%nat.
Proof.
  unfold start_codex_async, task_file, open_w, time_time, dump_meta.
  unfold bind, lift, tick, ret.
  destruct (build_cmd subcommand prompt args) as [cmd | e]; [|discriminate].
  set (t := take 8 (uuid4_at E (ticks w))).
  destruct (with_suffix E t (lit ".stdout")) as [so|] eqn:Hso; [|discriminate].
  cbn [ticks captures metas sent].
  destruct (with_suffix E t (lit ".stderr")) as [se|] eqn:Hse; [|discriminate].
  cbn [ticks captures metas sent].
  match goal with
  | |- context [popen_at E ?k cmd] =>
      destruct (popen_at E k cmd) as [proc_pid | e]; [|discriminate]
  end.
  destruct (join_space cmd) as [joined | e]; [|discriminate].
  cbn [ticks captures metas sent].
  destruct (with_suffix E t (lit ".meta")) as [sm|] eqn:Hsm; [|discriminate].
  intros [= <- <-].
  exists sm, so, se. eexists. exists (S (S (S (S (ticks w))))).
  split; [done|]. cbn [ticks captures metas sent].
  split. { apply lookup_insert_is_Some. destruct (decide (se = so)); eauto.
           right. split; [done|]. rewrite lookup_insert_eq. eauto. }
  split. { rewrite lookup_insert_eq. eauto. }
  split; [apply lookup_insert_eq|].
  repeat split; lia.
Qed.

End Dispatcher.

(** C9.  Every [tools/list] request is answered with the same tool catalog,
    the constant [TOOLS], whatever the environment, the world (the task
    directory, earlier requests) and the rest of the request; so the two
    catalogs print to the same bytes under any printer. *)
Theorem tools_list_constant (E1 E2 : Env) (request1 request2 id1 id2 : json)
    (w1 w2 : World) :
  py_get request1 "method" JNull = Ok (js "tools/list") ->
  py_get request1 "id" JNull = Ok id1 ->
  py_get request2 "method" JNull = Ok (js "tools/list") ->
  py_get request2 "id" JNull = Ok id2 ->
  exists response1 response2,
    handle_request E1 request1 w1 = (Ok tt, sending w1 response1) /\
    handle_request E2 request2 w2 = (Ok tt, sending w2 response2) /\
    tools_of response1 = Some TOOLS /\
    tools_of response2 = Some TOOLS /\
    forall dumps : json -> pystr,
      dumps <$> tools_of response1 = dumps <$> tools_of response2.
Proof.
  intros Hm1 Hid1 Hm2 Hid2.
  destruct (py_get_params _ _ JNull Hm1) as (? & p1 & _ & Hp1).
  destruct (py_get_params _ _ JNull Hm2) as (? & p2 & _ & Hp2).
  eexists _, _. split; [|split].
  - unfold handle_request, bind, lift. rewrite Hm1, Hid1, Hp1. reflexivity.
  - unfold handle_request, bind, lift. rewrite Hm2, Hid2, Hp2. reflexivity.
  - split; [reflexivity|]. split; reflexivity.
Qed.

Lemma call_is_tool_call (request_id : json) (tool : string) (arguments : json) :
  is_tool_call (call request_id tool arguments) request_id (js tool) arguments.
Proof. eexists. repeat split; reflexivity. Qed.

(** [check_result_not_found] for an id nobody launched. *)
Lemma check_result_not_found_witness :
  check_task_status sample TID empty_world
  = (Ok (NotFound (lit "Task ab12cd34 not found")), empty_world) /\
  exists response,
    handle_request sample
      (call (JInt 7) "codex_check_result" (obj ["task_id" =: JStr TID])) empty_world
    = (Ok tt, sending empty_world response) /\
    is_text_response (JInt 7) (lit "Task ab12cd34 not found") response.
Proof.
  split.
  - exact (proj1 (check_result_not_found sample TID TID_META empty_world
                    eq_refl (conj eq_refl eq_refl))).
  - destruct (proj2 (check_result_not_found sample TID TID_META empty_world
                       eq_refl (conj eq_refl eq_refl))
                (call (JInt 7) "codex_check_result" (obj ["task_id" =: JStr TID]))
                (JInt 7) (obj ["task_id" =: JStr TID])
                (call_is_tool_call _ _ _) eq_refl)
      as (response & Hsent & Htext & _).
    exists response. split; [exact Hsent|]. apply Htext. discriminate.
Defined.

(** C3, as the specification words it, fails on the empty string: no
    metadata artifact exists for it, and the tool answers with the error
    -32602, not with a text response. *)
Lemma empty_task_id_is_invalid_params :
  with_suffix sample [] (lit ".meta") = Some (lit "/tmp/codex_tasks.meta") /\
  metas empty_world !! lit "/tmp/codex_tasks.meta" = None /\
  stat_fails sample (lit "/tmp/codex_tasks.meta") = false /\
  handle_request sample
    (call (JInt 7) "codex_check_result" (obj ["task_id" =: JStr []])) empty_world
  = (Ok tt, sending empty_world
              (JObj [(lit "jsonrpc", JStr (lit "2.0"));
                     (lit "id", JInt 7);
                     (lit "error",
                      JObj [(lit "code", JInt (-32602));
                            (lit "message", JStr (lit "task_id is required"))])])).
Proof. repeat split. Qed.

(** The lookup itself can fail.  No metadata artifact exists for the 251
    characters of [LONG_ID]; [exists] raises [OSError] on a name that long,
    and the tool prints nothing, not even [not found]. *)
Lemma long_task_id_raises :
  length LONG_ID = 251%nat /\
  (exists meta_file,
     with_suffix sample LONG_ID (lit ".meta") = Some meta_file /\
     metas empty_world !! meta_file = None /\
     stat_fails sample meta_file = true) /\
  check_task_status sample LONG_ID empty_world = (Raise OSError, empty_world) /\
  handle_request sample
    (call (JInt 7) "codex_check_result" (obj ["task_id" =: JStr LONG_ID])) empty_world
  = (Raise OSError, empty_world).
Proof.
  split; [reflexivity|]. split; [|split; vm_compute; reflexivity].
  eexists. split; [reflexivity|]. split; vm_compute; reflexivity.
Qed.

(** [parse_error_response] on a truncated line. *)
Lemma parse_error_response_witness :
  strip (lit "{bad" ++ [NL]) = lit "{bad" /\
  exists response,
    main sample [lit "{bad" ++ [NL]; [NL]] empty_world
    = main sample [[NL]] (sending empty_world response) /\
    main sample [lit "{bad" ++ [NL]] empty_world
    = (Ok tt, sending empty_world response) /\
    sent (sending empty_world response) = sent empty_world ++ [response] /\
    is_error_response JNull (-32700)
      (lit "Parse error: Expecting property name enclosed in double quotes: line 1 column 2 (char 1)")
      response.
Proof.
  split; [reflexivity|].
  refine (proj2 (parse_error_response sample (lit "{bad" ++ [NL]) [[NL]] empty_world)
            _ _ eq_refl).
  vm_compute. discriminate.
Defined.

(** C5, as the specification words it, fails on an empty line: it is not
    valid JSON ([json.loads] rejects the empty text), and the loop prints
    nothing for it. *)
Lemma empty_line_gets_no_response :
  strip [NL] = [] /\
  json_loads sample []
  = inl (lit "Expecting value: line 1 column 1 (char 0)") /\
  main sample [[NL]] empty_world = (Ok tt, empty_world) /\
  sent empty_world = [].
Proof. repeat split. Qed.

(** The line [NaN] is not valid JSON, and [json.loads] accepts it all the
    same: no parse error is printed, and [handle_request] raises on the
    float it is handed. *)
Lemma nan_line_is_not_a_parse_error :
  json_loads sample (strip (lit "NaN" ++ [NL])) = inr JNaN /\
  main sample [lit "NaN" ++ [NL]] empty_world = (Raise AttributeError, empty_world) /\
  sent empty_world = [].
Proof. repeat split. Qed.

(** [unknown_method_or_tool] on a [ping] request and on a call of a tool
    that does not exist. *)
Lemma unknown_method_or_tool_witness :
  (exists response,
     handle_request sample PING empty_world = (Ok tt, sending empty_world response) /\
     is_error_response (JInt 1) (-32601) (lit "Method not found: ping") response) /\
  (exists response,
     handle_request sample (call (JInt 2) "codex_cancel" (obj [])) empty_world
     = (Ok tt, sending empty_world response) /\
     is_error_response (JInt 2) (-32601) (lit "Unknown tool: codex_cancel") response).
Proof.
  split.
  - destruct (proj1 (unknown_method_or_tool sample PING (JInt 1) empty_world eq_refl)
                (js "ping") eq_refl) as (response & name & Hsent & Herr & Hname & _);
      try discriminate.
    exists response. split; [exact Hsent|].
    rewrite (Hname (lit "ping") eq_refl) in Herr. exact Herr.
  - destruct (proj2 (unknown_method_or_tool sample
                       (call (JInt 2) "codex_cancel" (obj [])) (JInt 2) empty_world
                       eq_refl)
                (js "codex_cancel") (obj []) (call_is_tool_call _ _ _))
      as (response & name & Hsent & Herr & Hname & _); try discriminate.
    exists response. split; [exact Hsent|].
    rewrite (Hname (lit "codex_cancel") eq_refl) in Herr. exact Herr.
Defined.

(** C6, as the specification words it, fails on a [tools/call] request
    whose [params] is not an object.  The tool named in the array is none
    of the three tools, and the request whose [params] is [null] names
    none at all; the dispatcher raises [AttributeError] on [params.get]
    and prints no response. *)
Lemma call_without_object_gets_no_response :
  py_get (obj ["jsonrpc" =: js "2.0"; "id" =: JInt 4; "method" =: js "tools/call";
               "params" =: JArr [js "codex_cancel"]]) "method" JNull
  = Ok (js "tools/call") /\
  py_get (obj ["jsonrpc" =: js "2.0"; "id" =: JInt 4; "method" =: js "tools/call";
               "params" =: JArr [js "codex_cancel"]]) "params" (obj [])
  = Ok (JArr [js "codex_cancel"]) /\
  handle_request sample
    (obj ["jsonrpc" =: js "2.0"; "id" =: JInt 4; "method" =: js "tools/call";
          "params" =: JArr [js "codex_cancel"]]) empty_world
  = (Raise AttributeError, empty_world) /\
  py_get (obj ["jsonrpc" =: js "2.0"; "id" =: JInt 5; "method" =: js "tools/call";
               "params" =: JNull]) "method" JNull
  = Ok (js "tools/call") /\
  py_get (obj ["jsonrpc" =: js "2.0"; "id" =: JInt 5; "method" =: js "tools/call";
               "params" =: JNull]) "params" (obj [])
  = Ok JNull /\
  handle_request sample
    (obj ["jsonrpc" =: js "2.0"; "id" =: JInt 5; "method" =: js "tools/call";
          "params" =: JNull]) empty_world
  = (Raise AttributeError, empty_world) /\
  sent empty_world = [].
Proof. repeat split. Qed.

(** [sync_failures_are_text] on a run that times out. *)
Lemma sync_failures_are_text_witness :
  exists response,
    handle_request sample
      (call (JInt 3) "codex_execute" (obj ["prompt" =: js "hi"; "timeout" =: JInt 1]))
      empty_world
    = (Ok tt, sending (advance 1 empty_world) response) /\
    is_text_response (JInt 3) (lit "Error: Codex execution timed out") response.
Proof.
  destruct (proj2 (sync_failures_are_text sample
                     (call (JInt 3) "codex_execute"
                        (obj ["prompt" =: js "hi"; "timeout" =: JInt 1]))
                     (JInt 3) (obj ["prompt" =: js "hi"; "timeout" =: JInt 1])
                     empty_world (call_is_tool_call _ _ _))
              (js "exec") (js "hi") (JArr []) (JInt 1)
              [js "codex"; js "exec"; js "hi"]
              eq_refl eq_refl eq_refl eq_refl eq_refl)
    as (text & response & _ & Hsent & Htext & Htimeout & _).
  exists response. split; [exact Hsent|].
  rewrite <- (Htimeout eq_refl). exact Htext.
Defined.

(** [launch_creates_artifacts] on a launch in the empty task directory. *)
Lemma launch_creates_artifacts_witness :
  exists meta_file stdout_file stderr_file md n,
    task_paths sample (lit "3f2a9c1e") meta_file stdout_file stderr_file /\
    is_Some (captures
               (snd (start_codex_async sample (js "exec") (js "hi")
                       (JArr [js "--full-auto"]) empty_world)) !! stdout_file) /\
    is_Some (captures
               (snd (start_codex_async sample (js "exec") (js "hi")
                       (JArr [js "--full-auto"]) empty_world)) !! stderr_file) /\
    metas (snd (start_codex_async sample (js "exec") (js "hi")
                  (JArr [js "--full-auto"]) empty_world)) !! meta_file = Some md /\
    task_id md = lit "3f2a9c1e" /\
    status md = lit "running" /\
    completed_at md = None /\
    started_at md = time_at sample n /\
    (0 <= n < 5)%nat.
Proof.
  refine (launch_creates_artifacts sample (js "exec") (js "hi")
            (JArr [js "--full-auto"]) empty_world
            (snd (start_codex_async sample (js "exec") (js "hi")
                    (JArr [js "--full-auto"]) empty_world))
            (lit "3f2a9c1e") _).
  vm_compute. reflexivity.
Defined.

(** [tools_list_constant] on two requests, the second after a task ran. *)
Lemma tools_list_constant_witness :
  exists response1 response2,
    handle_request sample (list_tools (JInt 1)) empty_world
    = (Ok tt, sending empty_world response1) /\
    handle_request (sample_env (ticking 5) (RunException (lit "boom")))
      (list_tools (js "second")) w_task
    = (Ok tt, sending w_task response2) /\
    tools_of response1 = Some TOOLS /\
    tools_of response2 = Some TOOLS /\
    forall dumps : json -> pystr,
      dumps <$> tools_of response1 = dumps <$> tools_of response2.
Proof.
  exact (tools_list_constant sample (sample_env (ticking 5) (RunException (lit "boom")))
           (list_tools (JInt 1)) (list_tools (js "second")) (JInt 1) (js "second")
           empty_world w_task eq_refl eq_refl eq_refl eq_refl).
Defined.

(** * Further properties *)

(** ** The Output Extractor: shape of the result *)

Lemma starts_clean_lstrip (s : pystr) : starts_clean (lstrip s) = true.
Proof.
  induction s as [|c s IH]; [done|]. simpl.
  destruct (isspace c) eqn:Hc; [done|]. simpl. by rewrite Hc.
Qed.

Lemma lstrip_suffix (s : pystr) :
  exists p, s = p ++ lstrip s /\ forallb isspace p = true.
Proof.
  induction s as [|c s (p & Hs & Hp)]; [by exists [] |]. simpl.
  destruct (isspace c) eqn:Hc.
  - exists (c :: p). simpl. rewrite Hc, Hp. split; [congruence | done].
  - by exists [].
Qed.

Lemma starts_clean_app (l m : pystr) :
  l <> [] -> starts_clean (l ++ m) = starts_clean l.
Proof. by destruct l. Qed.

Lemma starts_clean_rev_lstrip (x : pystr) :
  starts_clean (rev x) = true -> starts_clean (rev (lstrip x)) = true.
Proof.
  destruct (lstrip_suffix x) as (p & Hx & _). intros H.
  destruct (lstrip x) as [|c r] eqn:Hl; [done|].
  rewrite Hx, rev_app_distr, starts_clean_app in H; [done|].
  intros Hnil. apply (f_equal (@length N)) in Hnil.
  rewrite length_rev in Hnil. discriminate.
Qed.

Lemma trimmed_strip (s : pystr) : trimmed (strip s) = true.
Proof.
  unfold trimmed, strip, rstrip. rewrite rev_involutive. apply andb_true_iff. split.
  - apply starts_clean_rev_lstrip. rewrite rev_involutive. apply starts_clean_lstrip.
  - apply starts_clean_lstrip.
Qed.

(** X1.  Whatever the child printed, the extracted result is never the empty
    string and never starts or ends with white space. *)
Theorem extract_result_nonempty_trimmed (stdout stderr : pystr) :
  extract_result_from_codex_output stdout stderr <> [] /\
  trimmed (extract_result_from_codex_output stdout stderr) = true.
Proof.
  unfold extract_result_from_codex_output.
  destruct (str_truthy (strip stdout)) eqn:Hout; simpl.
  - rewrite Hout. split; [by apply str_truthy_true | apply trimmed_strip].
  - destruct (str_truthy stderr); simpl.
    + destruct (re_search stderr) as [g|].
      * destruct (str_truthy (strip g)) eqn:Hg.
        -- split; [by apply str_truthy_true | apply trimmed_strip].
        -- split; [discriminate | reflexivity].
      * rewrite Hout. split; [discriminate | reflexivity].
    + rewrite Hout. split; [discriminate | reflexivity].
Qed.

(** ** The Process Launcher: what a launch leaves behind *)

Section Launcher.
Context (E : Env).

(** What a launch that returns an id has done. *)
Lemma start_inv (subcommand prompt args : json) (w w' : World) (tid : pystr) :
  start_codex_async E subcommand prompt args w = (Ok tid, w') ->
  exists cmd so se sm proc_pid joined,
    tid = take 8 (uuid4_at E (ticks w)) /\
    build_cmd subcommand prompt args = Ok cmd /\
    task_paths E tid sm so se /\
    popen_at E (3 + ticks w) cmd = Ok proc_pid /\
    join_space cmd = Ok joined /\
    w' = advance 5
           (with_meta sm
              (Metadata tid proc_pid (lit "running") joined
                        (time_at E (4 + ticks w)) None)
              (with_capture E se (2 + ticks w)
                 (with_capture E so (1 + ticks w) w))).
Proof.
  unfold start_codex_async, task_file, open_w, time_time, dump_meta.
  unfold bind, lift, tick, ret.
  destruct (build_cmd subcommand prompt args) as [cmd | e] eqn:Hcmd; [|discriminate].
  set (t := take 8 (uuid4_at E (ticks w))).
  destruct (with_suffix E t (lit ".stdout")) as [so|] eqn:Hso; [|discriminate].
  cbn [ticks captures metas sent].
  destruct (with_suffix E t (lit ".stderr")) as [se|] eqn:Hse; [|discriminate].
  cbn [ticks captures metas sent].
  destruct (popen_at E (S (S (S (ticks w)))) cmd) as [proc_pid | e] eqn:Hp;
    [|discriminate].
  destruct (join_space cmd) as [joined | e] eqn:Hj; [|discriminate].
  cbn [ticks captures metas sent].
  destruct (with_suffix E t (lit ".meta")) as [sm|] eqn:Hsm; [|discriminate].
  intros [= <- <-]. exists cmd, so, se, sm, proc_pid, joined.
  repeat split; done.
Qed.

(** X2.  When [Popen] raises (the executable is missing, say), the launch
    raises the same exception and returns no id; by then both capture files
    have been created, empty, and no metadata record is written for them:
    nothing is printed and the records of the directory are as before. *)
Theorem failed_launch_leaves_captures (subcommand prompt args : json)
    (w : World) (cmd : list json) (so se : pystr) (e : exn) :
  build_cmd subcommand prompt args = Ok cmd ->
  with_suffix E (take 8 (uuid4_at E (ticks w))) (lit ".stdout") = Some so ->
  with_suffix E (take 8 (uuid4_at E (ticks w))) (lit ".stderr") = Some se ->
  popen_at E (3 + ticks w) cmd = Raise e ->
  exists w',
    start_codex_async E subcommand prompt args w = (Raise e, w') /\
    (exists t, captures w' !! so = Some (Capture [] t)) /\
    (exists t, captures w' !! se = Some (Capture [] t)) /\
    metas w' = metas w /\
    sent w' = sent w.
Proof.
  intros Hcmd Hso Hse Hp.
  unfold start_codex_async, task_file, open_w, time_time, dump_meta.
  unfold bind, lift, tick, ret. rewrite Hcmd, Hso. cbn [ticks captures metas sent].
  rewrite Hse. cbn [ticks captures metas sent].
  change (S (S (S (ticks w)))) with (3 + ticks w)%nat. rewrite Hp.
  eexists. split; [reflexivity|]. cbn [ticks captures metas sent].
  split; [|split; [|done]].
  - destruct (decide (se = so)) as [-> | Hne].
    + rewrite lookup_insert_eq. eauto.
    + rewrite lookup_insert_ne by done. rewrite lookup_insert_eq. eauto.
  - rewrite lookup_insert_eq. eauto.
Qed.

(** X3.  A launch that returns an id prints nothing and touches only the
    three artifacts of that id: every other capture file and every other
    metadata record is as before.  The two captures of the id are empty
    afterwards, whatever they held (an id drawn twice starts over), and the
    id has at most 8 characters. *)
Theorem launch_touches_only_its_artifacts (subcommand prompt args : json)
    (w w' : World) (tid : pystr) :
  start_codex_async E subcommand prompt args w = (Ok tid, w') ->
  exists sm so se,
    task_paths E tid sm so se /\
    (length tid <= 8)%nat /\
    sent w' = sent w /\
    (forall p, p <> so -> p <> se -> captures w' !! p = captures w !! p) /\
    (forall p, p <> sm -> metas w' !! p = metas w !! p) /\
    (exists t, captures w' !! so = Some (Capture [] t)) /\
    (exists t, captures w' !! se = Some (Capture [] t)).
Proof.
  intros H. apply start_inv in H
    as (cmd & so & se & sm & proc_pid & joined & Htid & _ & Hpaths & _ & _ & ->).
  exists sm, so, se. split; [done|]. split.
  { rewrite Htid, length_take. lia. }
  split; [done|]. cbn [advance with_meta with_capture captures metas sent ticks].
  split; [|split; [|split]].
  - intros p Hso Hse. by rewrite !lookup_insert_ne.
  - intros p Hsm. by rewrite lookup_insert_ne.
  - destruct (decide (se = so)) as [-> | Hne].
    + rewrite lookup_insert_eq. eauto.
    + rewrite lookup_insert_ne by done. rewrite lookup_insert_eq. eauto.
  - rewrite lookup_insert_eq. eauto.
Qed.

(** A check right after a launch, less than 10 seconds (by the clock) after
    the capture files were created. *)
Lemma running_after_launch (subcommand prompt args : json)
    (w w' : World) (tid : pystr) :
  start_codex_async E subcommand prompt args w = (Ok tid, w') ->
  (time_at E (ticks w') - time_at E (1 + ticks w) < 10)%Q ->
  (time_at E (ticks w') - time_at E (2 + ticks w) < 10)%Q ->
  exists cmd joined,
    build_cmd subcommand prompt args = Ok cmd /\
    join_space cmd = Ok joined /\
    check_task_status E tid w'
    = (Ok (Running tid
             (py_int (time_at E (1 + ticks w') - time_at E (4 + ticks w)))
             joined),
       advance 2 w').
Proof.
  intros H H1 H2. apply start_inv in H
    as (cmd & so & se & sm & proc_pid & joined & Htid & Hcmd & Hpaths & _ & Hj & ->).
  exists cmd, joined. split; [done|]. split; [done|].
  erewrite (check_found E tid sm so se Hpaths); [|apply lookup_insert_eq].
  cbv zeta. cbn [advance with_meta with_capture captures metas sent ticks] in *.
  set (t1 := time_at E (1 + ticks w)) in *.
  set (t2 := time_at E (2 + ticks w)) in *.
  assert (exists t,
            <[se:=Capture [] t2]> (<[so:=Capture [] t1]> (captures w)) !! so
            = Some (Capture [] t) /\ (t = t1 \/ t = t2))
    as (t & -> & Ht).
  { destruct (decide (se = so)) as [-> | Hne].
    - rewrite lookup_insert_eq. eauto.
    - rewrite lookup_insert_ne by done. rewrite lookup_insert_eq. eauto. }
  rewrite lookup_insert_eq.
  cbn [path_exists orb stamp from_option mtime].
  assert (Qltb (time_at E (5 + ticks w) - py_max t t2) 10 = true) as ->.
  { apply Qltb_lt. unfold py_max. destruct (Qltb _ _); [done|].
    destruct Ht as [-> | ->]; done. }
  reflexivity.
Qed.

End Launcher.

(** ** The Liveness Inspector: what a check touches and what it reads *)

Section InspectorFrame.
Context (E : Env).

Lemma check_frame (tid : pystr) (w w' : World) (r : res status_info) :
  check_task_status E tid w = (r, w') ->
  captures w' = captures w /\
  sent w' = sent w /\
  (forall p, with_suffix E tid (lit ".meta") <> Some p ->
             metas w' !! p = metas w !! p) /\
  ((forall result el, r <> Ok (Completed tid result el)) -> metas w' = metas w).
Proof.
  destruct (with_suffix E tid (lit ".meta")) as [sm|] eqn:Hsm.
  2: { unfold check_task_status, task_file, bind, lift. rewrite Hsm.
       intros [= <- <-]. done. }
  destruct (metas w !! sm) as [md|] eqn:Hmd.
  2: { unfold check_task_status, task_file, bind, lift, get_world, path_exists.
       rewrite Hsm, Hmd. destruct (stat_fails E sm); intros [= <- <-]; done. }
  destruct (with_suffix E tid (lit ".stdout")) as [so|] eqn:Hso.
  2: { unfold check_task_status, task_file, bind, lift, get_world, path_exists.
       rewrite Hsm, Hmd, Hso. intros [= <- <-]. done. }
  destruct (with_suffix E tid (lit ".stderr")) as [se|] eqn:Hse.
  2: { unfold check_task_status, task_file, bind, lift, get_world, path_exists.
       rewrite Hsm, Hmd, Hso, Hse. intros [= <- <-]. done. }
  rewrite (check_found E tid sm so se (conj Hsm (conj Hso Hse)) w md Hmd).
  cbv zeta.
  destruct (path_exists E so _) as [a|?];
    [destruct (path_exists E se _) as [b|?]|];
    [destruct (a || b);
       [destruct (Qltb _ _);
          [|destruct (read_text E (captures w !! so)) as [?|?];
            [destruct (read_text E (captures w !! se)) as [?|?]|]]|]| |];
    intros [= <- <-];
    cbn [advance with_meta captures metas sent];
    (split; [done|]); (split; [done|]); split;
    try (intros p Hp; apply lookup_insert_ne; congruence);
    try done; intros Hnot; exfalso; by eapply Hnot.
Qed.

(** X5.  A status check never writes a capture file and never prints.  It
    writes at most one metadata record, the one of the id it checks, and
    only when it reports [completed]; and whatever it reports, that record
    keeps its [task_id], [pid], [command] and [started_at]. *)
Theorem check_touches_only_its_record (tid sm : pystr) (w w' : World)
    (r : res status_info) :
  with_suffix E tid (lit ".meta") = Some sm ->
  check_task_status E tid w = (r, w') ->
  captures w' = captures w /\
  sent w' = sent w /\
  (forall p, p <> sm -> metas w' !! p = metas w !! p) /\
  ((forall result el, r <> Ok (Completed tid result el)) -> metas w' = metas w) /\
  (forall md, metas w !! sm = Some md ->
     exists md',
       metas w' !! sm = Some md' /\
       task_id md' = task_id md /\ pid md' = pid md /\
       command md' = command md /\ started_at md' = started_at md).
Proof.
  intros Hsm Hc. pose proof (check_frame _ _ _ _ Hc) as (Hcap & Hsent & Hother & Hsame).
  split; [done|]. split; [done|]. split.
  { intros p Hp. apply Hother. congruence. }
  split; [done|]. intros md Hmd.
  destruct r as [[error | ? el cmd | ? result el] | e];
    try (rewrite Hsame by done; by exists md).
  revert Hc.
  destruct (with_suffix E tid (lit ".stdout")) as [so|] eqn:Hso.
  2: { unfold check_task_status, task_file, bind, lift, get_world, path_exists.
       rewrite Hsm, Hmd, Hso. discriminate. }
  destruct (with_suffix E tid (lit ".stderr")) as [se|] eqn:Hse.
  2: { unfold check_task_status, task_file, bind, lift, get_world, path_exists.
       rewrite Hsm, Hmd, Hso, Hse. discriminate. }
  rewrite (check_found E tid sm so se (conj Hsm (conj Hso Hse)) w md Hmd).
  cbv zeta.
  destruct (path_exists E so _) as [a|?]; [|discriminate].
  destruct (path_exists E se _) as [b|?]; [|discriminate].
  destruct (a || b).
  - destruct (Qltb _ _); [discriminate|].
    destruct (read_text E (captures w !! so)); [|discriminate].
    destruct (read_text E (captures w !! se)); [|discriminate].
    intros [= _ _ _ <-].
    cbn [advance with_meta metas]. rewrite lookup_insert_eq. by eexists.
  - intros [= _ _ _ <-].
    cbn [advance with_meta metas]. rewrite lookup_insert_eq. by eexists.
Qed.

(** X6.  A check never reads the stored [status], [completed_at], [task_id]
    or [pid]: two records with the same [started_at] and [command] get the
    same report.  So a task persisted as completed is reported [running]
    again whenever a capture file is fresh. *)
Theorem check_ignores_stored_status (tid sm so se : pystr) (w : World)
    (md md' : metadata_record) :
  task_paths E tid sm so se ->
  metas w !! sm = Some md ->
  started_at md' = started_at md ->
  command md' = command md ->
  fst (check_task_status E tid (with_meta sm md' w))
  = fst (check_task_status E tid w).
Proof.
  intros Hpaths Hmd Hs Hc.
  rewrite (check_found E tid sm so se Hpaths w md Hmd).
  erewrite (check_found E tid sm so se Hpaths (with_meta sm md' w));
    [|apply lookup_insert_eq].
  cbv zeta. cbn [with_meta captures ticks]. rewrite Hs, Hc.
  destruct (path_exists E so _) as [a|?];
    [destruct (path_exists E se _) as [b|?]|]; try reflexivity.
  destruct (a || b); [destruct (Qltb _ _)|]; try reflexivity.
  destruct (read_text E (captures w !! so));
    [destruct (read_text E (captures w !! se))|]; reflexivity.
Qed.

End InspectorFrame.

(** [check_ignores_stored_status] on the sample task: persisted as
    completed an hour ago, with a capture written three seconds ago, it is
    reported running. *)
Lemma check_ignores_stored_status_witness :
  fst (check_task_status (sample_env (ticking 1003) RunTimeoutExpired) TID
         (with_meta TID_META
            (Metadata TID 4242 (lit "completed") (lit "codex exec hi") 995 (Some 999%Q))
            w_task))
  = Ok (Running TID 9 (lit "codex exec hi")).
Proof.
  refine (eq_trans
            (check_ignores_stored_status
               (sample_env (ticking 1003) RunTimeoutExpired)
               TID TID_META TID_STDOUT TID_STDERR w_task TID_RECORD
               (Metadata TID 4242 (lit "completed") (lit "codex exec hi") 995
                         (Some 999%Q))
               (sample_paths _ _) eq_refl eq_refl eq_refl) _).
  reflexivity.
Defined.

(** ** The dispatcher: one request, one response *)

Section Responses.
Context (E : Env).

Lemma start_sent (subcommand prompt args : json) (w w' : World) (r : res pystr) :
  start_codex_async E subcommand prompt args w = (r, w') -> sent w' = sent w.
Proof.
  unfold start_codex_async, task_file, open_w, time_time, dump_meta.
  unfold bind, lift, tick, ret.
  destruct (build_cmd subcommand prompt args) as [cmd | e];
    [|by intros [= <- <-]].
  destruct (with_suffix E _ (lit ".stdout")) as [so|]; [|by intros [= <- <-]].
  cbn [ticks captures metas sent].
  destruct (with_suffix E _ (lit ".stderr")) as [se|]; [|by intros [= <- <-]].
  cbn [ticks captures metas sent].
  destruct (popen_at E _ cmd) as [proc_pid | e]; [|by intros [= <- <-]].
  destruct (join_space cmd) as [joined | e]; [|by intros [= <- <-]].
  cbn [ticks captures metas sent].
  destruct (with_suffix E _ (lit ".meta")) as [sm|]; by intros [= <- <-].
Qed.

Lemma text_result_is_response (request_id : json) (text : pystr) :
  is_response request_id (text_result request_id text).
Proof. split; [done|]. split; [done|]. left. split; [by eexists | done]. Qed.

Lemma error_response_is_response (request_id : json) (code : Z) (message : pystr) :
  is_response request_id (error_response request_id code message).
Proof. split; [done|]. split; [done|]. right. split; [done | by eexists]. Qed.

(** What [handle_request] prints, by its outcome. *)
Lemma handle_request_sends (request : json) (w w' : World) (r : res unit) :
  handle_request E request w = (r, w') ->
  match r with
  | Ok _ =>
      exists request_id response,
        py_get request "id" JNull = Ok request_id /\
        sent w' = sent w ++ [response] /\
        is_response request_id response
  | Raise _ => sent w' = sent w
  end.
Proof.
  destruct request as [| | | | | |kvs| |]; try (by intros [= <- <-]).
  unfold handle_request, bind, lift. cbn [py_get].
  set (request_id := default JNull (assoc (lit "id") kvs)).
  destruct (is_str _ (lit "initialize")).
  { intros [= <- <-]. eexists _, _. split; [done|]. split; [done|].
    split; [done|]. split; [done|]. left. split; [by eexists | done]. }
  destruct (is_str _ (lit "tools/list")).
  { intros [= <- <-]. eexists _, _. split; [done|]. split; [done|].
    split; [done|]. split; [done|]. left. split; [by eexists | done]. }
  destruct (is_str _ (lit "tools/call")).
  2: { intros [= <- <-]. eexists _, _. split; [done|]. split; [done|].
       apply error_response_is_response. }
  destruct (default (obj []) (assoc (lit "params") kvs)) as [| | | | | |pkvs| |];
    try (by intros [= <- <-]).
  cbn [py_get]. destruct (is_str _ (lit "codex_execute")).
  { destruct (default (obj []) (assoc (lit "arguments") pkvs)) as [| | | | | |akvs| |];
      try (by intros [= <- <-]).
    cbn [py_get].
    destruct (call_codex_sync E _ _ _ _ w) as [[text | e] w1] eqn:Hs;
      apply call_codex_sync_sent in Hs; intros [= <- <-]; [|done].
    eexists _, _. split; [done|]. split; [cbn; by rewrite Hs|].
    apply text_result_is_response. }
  destruct (is_str _ (lit "codex_execute_async")).
  { destruct (default (obj []) (assoc (lit "arguments") pkvs)) as [| | | | | |akvs| |];
      try (by intros [= <- <-]).
    cbn [py_get].
    destruct (start_codex_async E _ _ _ w) as [[tid | e] w1] eqn:Hs;
      apply start_sent in Hs; intros [= <- <-]; [|done].
    eexists _, _. split; [done|]. split; [cbn; by rewrite Hs|].
    apply text_result_is_response. }
  destruct (is_str _ (lit "codex_check_result")).
  2: { intros [= <- <-]. eexists _, _. split; [done|]. split; [done|].
       apply error_response_is_response. }
  destruct (default (obj []) (assoc (lit "arguments") pkvs)) as [| | | | | |akvs| |];
    try (by intros [= <- <-]).
  cbn [py_get]. destruct (truthy _) eqn:Ht; cbn [negb].
  2: { intros [= <- <-]. eexists _, _. split; [done|]. split; [done|].
       apply error_response_is_response. }
  destruct (default JNull (assoc (lit "task_id") akvs)) as [| | | |tid| | | |];
    try (by intros [= <- <-]).
  destruct (check_task_status E tid w) as [[info | e] w1] eqn:Hs;
    apply check_frame in Hs as (_ & Hs & _); intros [= <- <-]; [|done].
  eexists _, _. split; [done|]. split; [cbn; by rewrite Hs|].
  apply text_result_is_response.
Qed.

(** X7.  A request is answered by exactly one line when [handle_request]
    returns, and by none when it raises; nothing already printed is
    changed. *)
Theorem one_response_per_request (request : json) (w w' : World) (r : res unit) :
  handle_request E request w = (r, w') ->
  match r with
  | Ok _ => exists response, sent w' = sent w ++ [response]
  | Raise _ => sent w' = sent w
  end.
Proof.
  intros H. apply handle_request_sends in H. destruct r; [|done].
  destruct H as (_ & response & _ & H & _). eauto.
Qed.

(** X8.  Every line [handle_request] prints is a JSON-RPC response: it
    carries [jsonrpc] 2.0, the [id] of the request ([null] when the request
    has none), and exactly one of [result] and [error]. *)
Theorem responses_are_well_formed (request : json) (w w' : World) :
  handle_request E request w = (Ok tt, w') ->
  exists response,
    sent w' = sent w ++ [response] /\
    is_response (default JNull (member "id" request)) response.
Proof.
  intros H. apply handle_request_sends in H
    as (request_id & response & Hid & Hsent & Hresp).
  exists response. split; [done|].
  destruct request; try discriminate. injection Hid as <-. done.
Qed.

End Responses.

(** ** The dispatcher: arguments it rejects and arguments it cannot take *)

Section Edges.
Context (E : Env).

Ltac enter_call H :=
  let params := fresh "params" in
  let Hm := fresh "Hm" in
  let Hi := fresh "Hi" in
  let Hp := fresh "Hp" in
  let Hn := fresh "Hn" in
  let Ha := fresh "Ha" in
  destruct H as (params & Hm & Hi & Hp & Hn & Ha);
  unfold handle_request, bind, lift;
  rewrite Hm, Hi, Hp;
  change (is_str (js "tools/call") (lit "initialize")) with false;
  change (is_str (js "tools/call") (lit "tools/list")) with false;
  change (is_str (js "tools/call") (lit "tools/call")) with true;
  cbv iota; rewrite Hn, Ha.

(** X9.  [codex_check_result] with a [task_id] that is absent or falsy
    ([null], the empty string, 0, [false], an empty list or object) is
    answered with the error -32602 [task_id is required]; the task
    directory and the clock are not consulted. *)
Theorem falsy_task_id_is_rejected (request request_id : json)
    (akvs : list (pystr * json)) (w : World) :
  is_tool_call request request_id (js "codex_check_result") (JObj akvs) ->
  truthy (default JNull (assoc (lit "task_id") akvs)) = false ->
  handle_request E request w
  = (Ok tt, sending w (error_response request_id (-32602)
                         (lit "task_id is required"))) /\
  is_error_response request_id (-32602) (lit "task_id is required")
    (error_response request_id (-32602) (lit "task_id is required")).
Proof.
  intros H Ht. split; [by eapply handle_check_without_id|].
  apply error_response_is_error.
Qed.

(** X10.  A line that is valid JSON but not an object (a number, a string,
    a list, [null]) raises [AttributeError] out of the loop: nothing is
    printed for it and the lines after it are never read. *)
Theorem non_object_request_stops_loop (line : pystr) (rest : list pystr)
    (v : json) (w : World) :
  strip line <> [] ->
  json_loads E (strip line) = inr v ->
  (forall kvs, v <> JObj kvs) ->
  main E (line :: rest) w = (Raise AttributeError, w).
Proof.
  intros Hne Hv Hobj. apply str_truthy_true in Hne. cbn [main].
  rewrite Hne, Hv. cbn [negb].
  destruct v; try reflexivity. by destruct (Hobj kvs).
Qed.

(** X11.  [codex_execute] and [codex_execute_async] with an [args] value
    that is truthy and not iterable (a non-zero number, [true]) raise
    [TypeError]: building the command line is outside the [try], so no
    diagnostic text is made of it; nothing is printed and no artifact is
    created. *)
Theorem non_iterable_args_raise (request request_id : json)
    (akvs : list (pystr * json)) (w : World) :
  truthy (default (JArr []) (assoc (lit "args") akvs)) = true ->
  iterate (default (JArr []) (assoc (lit "args") akvs)) = Raise TypeError ->
  (is_tool_call request request_id (js "codex_execute") (JObj akvs) ->
   handle_request E request w = (Raise TypeError, w)) /\
  (is_tool_call request request_id (js "codex_execute_async") (JObj akvs) ->
   handle_request E request w = (Raise TypeError, advance 1 w)).
Proof.
  intros Ht Hi.
  assert (forall subcommand prompt,
            build_cmd subcommand prompt (default (JArr []) (assoc (lit "args") akvs))
            = Raise TypeError) as Hb.
  { intros. unfold build_cmd. by rewrite Ht, Hi. }
  split; intros H; enter_call H.
  - change (is_str (js "codex_execute") (lit "codex_execute")) with true.
    cbv iota. cbn [py_get]. unfold call_codex_sync, bind, lift. by rewrite Hb.
  - change (is_str (js "codex_execute_async") (lit "codex_execute")) with false.
    change (is_str (js "codex_execute_async") (lit "codex_execute_async")) with true.
    cbv iota. cbn [py_get]. unfold start_codex_async, bind, lift, tick.
    by rewrite Hb.
Qed.

(** X12.  [codex_check_result] with a truthy [task_id] that is not a string
    raises [TypeError], and with a string for which pathlib has no path it
    raises [ValueError]; in both cases nothing is printed and nothing
    changes. *)
Theorem unusable_task_id_raises (request request_id arguments task_id : json)
    (w : World) :
  is_tool_call request request_id (js "codex_check_result") arguments ->
  py_get arguments "task_id" JNull = Ok task_id ->
  truthy task_id = true ->
  ((forall s, task_id <> JStr s) ->
   handle_request E request w = (Raise TypeError, w)) /\
  (forall s, task_id = JStr s ->
             with_suffix E s (lit ".meta") = None ->
             handle_request E request w = (Raise ValueError, w)).
Proof.
  intros H Hid Ht. split.
  - intros Hs. enter_call H.
    change (is_str (js "codex_check_result") (lit "codex_execute")) with false.
    change (is_str (js "codex_check_result") (lit "codex_execute_async")) with false.
    change (is_str (js "codex_check_result") (lit "codex_check_result")) with true.
    cbv iota. rewrite Hid, Ht. cbn [negb].
    destruct task_id; try reflexivity. by destruct (Hs s).
  - intros s -> Hnone. enter_call H.
    change (is_str (js "codex_check_result") (lit "codex_execute")) with false.
    change (is_str (js "codex_check_result") (lit "codex_execute_async")) with false.
    change (is_str (js "codex_check_result") (lit "codex_check_result")) with true.
    cbv iota. rewrite Hid, Ht. cbn [negb].
    unfold check_task_status, task_file, bind, lift. by rewrite Hnone.
Qed.

(** X13.  [codex_execute] without [subcommand] and [args] runs
    [codex exec], followed by the prompt when there is a non-empty one, and
    answers with the text made of that run. *)
Theorem execute_defaults (request request_id : json)
    (akvs : list (pystr * json)) (w : World) :
  is_tool_call request request_id (js "codex_execute") (JObj akvs) ->
  assoc (lit "subcommand") akvs = None ->
  assoc (lit "args") akvs = None ->
  handle_request E request w
  = (Ok tt,
     sending (advance 1 w)
       (text_result request_id
          (sync_text
             (run_at E (ticks w)
                ([js "codex"; js "exec"]
                 ++ (if truthy (default JNull (assoc (lit "prompt") akvs))
                     then [default JNull (assoc (lit "prompt") akvs)] else []))
                (default JNull (assoc (lit "timeout") akvs)))))) /\
  (forall text, is_text_response request_id text (text_result request_id text)).
Proof.
  intros H Hsub Hargs. split; [|apply text_result_is_text].
  rewrite (handle_execute E _ _ _ w H).
  cbn [member]. rewrite Hsub, Hargs. cbn [default].
  unfold call_codex_sync, build_cmd, bind, lift, tick, ret.
  cbn [truthy iterate].
  destruct (truthy (default JNull (assoc (lit "prompt") akvs)));
    rewrite ?app_nil_r;
    destruct (run_at E (ticks w) _ _); reflexivity.
Qed.

End Edges.

(** ** The main loop *)

Section Loop.
Context (E : Env).

Lemma main_cons (line : pystr) (rest : list pystr) (w : World) :
  main E (line :: rest) w =
  if nonblank line then
    match json_loads E (strip line) with
    | inr request =>
        match handle_request E request w with
        | (Ok _, w') => main E rest w'
        | (Raise e, w') => (Raise e, w')
        end
    | inl str_e =>
        main E rest
          (sending w (error_response JNull (-32700) (lit "Parse error: " ++ str_e)))
    end
  else main E rest w.
Proof.
  cbn [main]. unfold nonblank. destruct (str_truthy (strip line)); cbn [negb]; [|done].
  destruct (json_loads E (strip line)); [done|].
  unfold bind. destruct (handle_request E j w) as [[[] | e] w']; done.
Qed.

(** X14.  Reading two batches of lines one after the other is reading their
    concatenation: the loop carries nothing from line to line but the world
    (the task directory, the clock, what is printed), and stops for good at
    the first exception. *)
Theorem main_app (lines1 lines2 : list pystr) (w : World) :
  main E (lines1 ++ lines2) w =
  match main E lines1 w with
  | (Ok _, w') => main E lines2 w'
  | (Raise e, w') => (Raise e, w')
  end.
Proof.
  revert w. induction lines1 as [|line rest IH]; intros w; [done|].
  rewrite <- app_comm_cons, !main_cons.
  destruct (nonblank line); [|apply IH].
  destruct (json_loads E (strip line)) as [str_e | request]; [apply IH|].
  destruct (handle_request E request w) as [[[] | e] w']; [apply IH | done].
Qed.

(** X15.  Blank lines change nothing: the loop does on a list of lines what
    it does on its non-blank lines. *)
Theorem main_skips_blank_lines (lines : list pystr) (w : World) :
  main E lines w = main E (List.filter nonblank lines) w.
Proof.
  revert w. induction lines as [|line rest IH]; intros w; [done|].
  cbn [List.filter]. destruct (nonblank line) eqn:Hb; rewrite !main_cons, Hb.
  - destruct (json_loads E (strip line)) as [str_e | request]; [apply IH|].
    destruct (handle_request E request w) as [[[] | e] w']; [apply IH | done].
  - apply IH.
Qed.

(** X16.  The loop only appends to what is printed, at most one line per
    non-blank input line, and exactly one per non-blank line when it reaches
    the end of the input. *)
Theorem main_output_bound (lines : list pystr) (w w' : World) (r : res unit) :
  main E lines w = (r, w') ->
  exists out,
    sent w' = sent w ++ out /\
    (length out <= length (List.filter nonblank lines))%nat /\
    (r = Ok tt -> length out = length (List.filter nonblank lines)).
Proof.
  revert w. induction lines as [|line rest IH]; intros w.
  { intros [= <- <-]. exists []. by rewrite app_nil_r. }
  rewrite main_cons. cbn [List.filter]. destruct (nonblank line); [|apply IH].
  destruct (json_loads E (strip line)) as [str_e | request].
  - intros H. apply IH in H as (out & Hs & Hle & Heq). cbn [sending sent] in Hs.
    eexists (_ :: out). rewrite <- app_assoc in Hs. split; [exact Hs|].
    cbn [length]. split; [lia|]. intros Hr. by rewrite Heq.
  - destruct (handle_request E request w) as [[[] | e] w1] eqn:Hh;
      apply handle_request_sends in Hh.
    + destruct Hh as (request_id & response & _ & Hs1 & _).
      intros H. apply IH in H as (out & Hs & Hle & Heq).
      exists (response :: out). rewrite Hs, Hs1, <- app_assoc.
      split; [done|]. cbn [length]. split; [lia|]. intros Hr. by rewrite Heq.
    + intros [= <- <-]. exists []. rewrite app_nil_r. split; [done|].
      cbn [length]. split; [lia | discriminate].
Qed.

(** Every answer of [main] to a rejected line is a parse error. *)
Lemma parse_errors_shape (lines : list pystr) :
  Forall (fun response =>
            exists str_e,
              is_error_response JNull (-32700) (lit "Parse error: " ++ str_e)
                response)
         (parse_errors E lines).
Proof.
  unfold parse_errors.
  induction (List.filter nonblank lines) as [|line rest IH]; [constructor|].
  cbn [flat_map]. destruct (json_loads E (strip line)) as [str_e|?]; [|exact IH].
  constructor; [|exact IH]. exists str_e. apply error_response_is_error.
Qed.

(** X17.  Input made only of blank lines and of lines that [json.loads]
    rejects never stops the loop: it reaches the end of the input, having
    printed one parse error per rejected line, in order, and having touched
    neither the task directory nor the clock. *)
Theorem main_survives_malformed_input (lines : list pystr) (w : World) :
  (forall line, In line lines ->
                nonblank line = true ->
                exists str_e, json_loads E (strip line) = inl str_e) ->
  main E lines w
  = (Ok tt, MkWorld (captures w) (metas w) (ticks w)
                    (sent w ++ parse_errors E lines)) /\
  Forall (fun response =>
            exists str_e,
              is_error_response JNull (-32700) (lit "Parse error: " ++ str_e)
                response)
         (parse_errors E lines).
Proof.
  intros Hbad. split; [|apply parse_errors_shape].
  revert w Hbad. induction lines as [|line rest IH]; intros w Hbad.
  { unfold parse_errors. cbn. rewrite app_nil_r. by destruct w. }
  rewrite main_cons. unfold parse_errors. cbn [List.filter].
  destruct (nonblank line) eqn:Hb.
  - destruct (Hbad line (or_introl eq_refl) Hb) as (str_e & Hl).
    rewrite Hl, IH by (intros l Hin; apply Hbad; by right).
    cbn [sending captures metas ticks sent flat_map]. rewrite Hl.
    by rewrite <- app_assoc.
  - apply IH. intros l Hin. apply Hbad. by right.
Qed.

End Loop.

(** ** Launch, then check *)

Section RoundTrip.
Context (E : Env).

Lemma handle_execute_async (request request_id : json)
    (akvs : list (pystr * json)) (w : World) :
  is_tool_call request request_id (js "codex_execute_async") (JObj akvs) ->
  handle_request E request w
  = match start_codex_async E
            (default (js "exec") (assoc (lit "subcommand") akvs))
            (default JNull (assoc (lit "prompt") akvs))
            (default (JArr []) (assoc (lit "args") akvs)) w with
    | (Ok tid, w') =>
        (Ok tt, sending w' (text_result request_id (launch_text tid)))
    | (Raise e, w') => (Raise e, w')
    end.
Proof.
  intros (params & Hm & Hi & Hp & Hn & Ha).
  unfold handle_request, bind, lift. rewrite Hm, Hi, Hp.
  change (is_str (js "tools/call") (lit "initialize")) with false.
  change (is_str (js "tools/call") (lit "tools/list")) with false.
  change (is_str (js "tools/call") (lit "tools/call")) with true.
  cbv iota. rewrite Hn, Ha.
  change (is_str (js "codex_execute_async") (lit "codex_execute")) with false.
  change (is_str (js "codex_execute_async") (lit "codex_execute_async")) with true.
  cbv iota. cbn [py_get].
  destruct (start_codex_async E _ _ _ w) as [[tid | e] w']; reflexivity.
Qed.

(** What is printed plays no part in a check. *)
Lemma check_sending (tid : pystr) (w : World) (response : json) :
  check_task_status E tid (sending w response)
  = (fst (check_task_status E tid w),
     sending (snd (check_task_status E tid w)) response).
Proof.
  unfold check_task_status, task_file, bind, lift, get_world.
  destruct (with_suffix E tid (lit ".meta")) as [sm|]; [|done].
  cbn [sending metas captures].
  destruct (path_exists E sm (metas w !! sm)); [|done].
  destruct (metas w !! sm) as [md|]; [|done].
  destruct (with_suffix E tid (lit ".stdout")) as [so|]; [|done].
  destruct (with_suffix E tid (lit ".stderr")) as [se|]; [|done].
  destruct (path_exists E so _) as [x|?]; [|done].
  destruct (path_exists E se _) as [y|?]; [|done].
  destruct (x || y).
  - unfold time_time, tick, bind, ret, dump_meta. cbn.
    destruct (Qltb _ _); [reflexivity|].
    destruct (read_text E (captures w !! so)); [|reflexivity].
    destruct (read_text E (captures w !! se)); reflexivity.
  - unfold time_time, tick, bind, ret, dump_meta. cbn.
    destruct (read_text E (captures w !! so)); [|reflexivity].
    destruct (read_text E (captures w !! se)); reflexivity.
Qed.

(** X4.  The round trip of the two tools.  A [codex_execute_async] request
    whose launch succeeds is answered with a text that names the new task
    id; a [codex_check_result] request for that id, made right after and
    less than 10 seconds (by the clock) after the capture files were
    created, is answered with the [still running] text, which shows the
    command line joined with spaces and elapsed seconds that are not
    negative when the clock has not run backwards. *)
Theorem launch_then_check (launch check request_id1 request_id2 arguments2 : json)
    (akvs : list (pystr * json)) (w w1 : World) (tid : pystr) :
  is_tool_call launch request_id1 (js "codex_execute_async") (JObj akvs) ->
  start_codex_async E
    (default (js "exec") (assoc (lit "subcommand") akvs))
    (default JNull (assoc (lit "prompt") akvs))
    (default (JArr []) (assoc (lit "args") akvs)) w = (Ok tid, w1) ->
  tid <> [] ->
  is_tool_call check request_id2 (js "codex_check_result") arguments2 ->
  py_get arguments2 "task_id" JNull = Ok (JStr tid) ->
  (time_at E (ticks w1) - time_at E (1 + ticks w) < 10)%Q ->
  (time_at E (ticks w1) - time_at E (2 + ticks w) < 10)%Q ->
  (time_at E (4 + ticks w) <= time_at E (1 + ticks w1))%Q ->
  exists el cmd joined,
    build_cmd (default (js "exec") (assoc (lit "subcommand") akvs))
              (default JNull (assoc (lit "prompt") akvs))
              (default (JArr []) (assoc (lit "args") akvs)) = Ok cmd /\
    join_space cmd = Ok joined /\
    handle_request E launch w
    = (Ok tt, sending w1 (text_result request_id1 (launch_text tid))) /\
    handle_request E check
      (sending w1 (text_result request_id1 (launch_text tid)))
    = (Ok tt,
       sending (sending (advance 2 w1) (text_result request_id1 (launch_text tid)))
         (text_result request_id2 (status_text tid (Running tid el joined)))) /\
    0 <= el /\
    is_text_response request_id1 (launch_text tid)
      (text_result request_id1 (launch_text tid)) /\
    is_text_response request_id2 (status_text tid (Running tid el joined))
      (text_result request_id2 (status_text tid (Running tid el joined))) /\
    status_text tid (Running tid el joined)
    = lit "Task " ++ tid ++ lit " is still running." ++ [NL]
      ++ lit "Elapsed: " ++ str_of_int el ++ lit "s" ++ [NL]
      ++ lit "Command: " ++ joined.
Proof.
  intros Hl Hs Hne Hc Hid H1 H2 Hmono.
  pose proof (running_after_launch E _ _ _ w w1 tid Hs H1 H2)
    as (cmd & joined & Hcmd & Hj & Hchk).
  eexists _, cmd, joined. split; [done|]. split; [done|].
  split; [|split; [|split; [|repeat split]]].
  - by rewrite (handle_execute_async _ _ _ w Hl), Hs.
  - rewrite (handle_check E _ _ _ tid _ Hc Hid Hne), check_sending, Hchk.
    reflexivity.
  - change 0 with (py_int 0). apply py_int_le.
    unfold Qminus. rewrite <- Qle_minus_iff. exact Hmono.
Qed.

End RoundTrip.

(** ** The further properties on sample inputs *)

Lemma failed_launch_leaves_captures_witness :
  exists w',
    start_codex_async broken_env (js "exec") (js "hi") (JArr []) empty_world
    = (Raise (OtherError (lit "[Errno 2] No such file or directory: 'codex'")), w') /\
    (exists t, captures w' !! lit "/tmp/codex_tasks/3f2a9c1e.stdout"
               = Some (Capture [] t)) /\
    (exists t, captures w' !! lit "/tmp/codex_tasks/3f2a9c1e.stderr"
               = Some (Capture [] t)) /\
    metas w' = metas empty_world /\
    sent w' = sent empty_world.
Proof.
  exact (failed_launch_leaves_captures broken_env (js "exec") (js "hi") (JArr [])
           empty_world [js "codex"; js "exec"; js "hi"] _ _ _
           eq_refl eq_refl eq_refl eq_refl).
Defined.

Lemma sample_launch_ok : SAMPLE_LAUNCH = (Ok (lit "3f2a9c1e"), snd SAMPLE_LAUNCH).
Proof. vm_compute. reflexivity. Qed.

Lemma launch_touches_only_its_artifacts_witness :
  exists sm so se,
    task_paths sample (lit "3f2a9c1e") sm so se /\
    (length (lit "3f2a9c1e") <= 8)%nat /\
    sent (snd SAMPLE_LAUNCH) = sent empty_world /\
    (forall p, p <> so -> p <> se ->
               captures (snd SAMPLE_LAUNCH) !! p = captures empty_world !! p) /\
    (forall p, p <> sm -> metas (snd SAMPLE_LAUNCH) !! p = metas empty_world !! p) /\
    (exists t, captures (snd SAMPLE_LAUNCH) !! so = Some (Capture [] t)) /\
    (exists t, captures (snd SAMPLE_LAUNCH) !! se = Some (Capture [] t)).
Proof.
  exact (launch_touches_only_its_artifacts sample _ _ _ empty_world
           (snd SAMPLE_LAUNCH) (lit "3f2a9c1e") sample_launch_ok).
Defined.

Lemma launch_then_check_witness :
  exists el cmd joined,
    build_cmd (js "exec") (js "hi") (JArr [js "--full-auto"]) = Ok cmd /\
    join_space cmd = Ok joined /\
    handle_request sample (call (JInt 1) "codex_execute_async" (JObj LAUNCH_ARGS))
      empty_world
    = (Ok tt, sending (snd SAMPLE_LAUNCH)
                (text_result (JInt 1) (launch_text (lit "3f2a9c1e")))) /\
    handle_request sample
      (call (JInt 2) "codex_check_result" (obj ["task_id" =: js "3f2a9c1e"]))
      (sending (snd SAMPLE_LAUNCH)
         (text_result (JInt 1) (launch_text (lit "3f2a9c1e"))))
    = (Ok tt,
       sending (sending (advance 2 (snd SAMPLE_LAUNCH))
                  (text_result (JInt 1) (launch_text (lit "3f2a9c1e"))))
         (text_result (JInt 2)
            (status_text (lit "3f2a9c1e") (Running (lit "3f2a9c1e") el joined)))) /\
    0 <= el /\
    is_text_response (JInt 1) (launch_text (lit "3f2a9c1e"))
      (text_result (JInt 1) (launch_text (lit "3f2a9c1e"))) /\
    is_text_response (JInt 2)
      (status_text (lit "3f2a9c1e") (Running (lit "3f2a9c1e") el joined))
      (text_result (JInt 2)
         (status_text (lit "3f2a9c1e") (Running (lit "3f2a9c1e") el joined))) /\
    status_text (lit "3f2a9c1e") (Running (lit "3f2a9c1e") el joined)
    = lit "Task " ++ lit "3f2a9c1e" ++ lit " is still running." ++ [NL]
      ++ lit "Elapsed: " ++ str_of_int el ++ lit "s" ++ [NL]
      ++ lit "Command: " ++ joined.
Proof.
  refine (launch_then_check sample
            (call (JInt 1) "codex_execute_async" (JObj LAUNCH_ARGS))
            (call (JInt 2) "codex_check_result" (obj ["task_id" =: js "3f2a9c1e"]))
            (JInt 1) (JInt 2) (obj ["task_id" =: js "3f2a9c1e"])
            LAUNCH_ARGS empty_world (snd SAMPLE_LAUNCH) (lit "3f2a9c1e")
            (call_is_tool_call _ _ _) sample_launch_ok _
            (call_is_tool_call _ _ _) eq_refl _ _ _).
  - discriminate.
  - vm_compute. reflexivity.
  - vm_compute. reflexivity.
  - vm_compute. discriminate.
Defined.

Lemma check_touches_only_its_record_witness :
  captures (snd (check_task_status sample TID w_task)) = captures w_task /\
  sent (snd (check_task_status sample TID w_task)) = sent w_task /\
  (forall p, p <> TID_META ->
             metas (snd (check_task_status sample TID w_task)) !! p
             = metas w_task !! p) /\
  ((forall result el,
      fst (check_task_status sample TID w_task) <> Ok (Completed TID result el)) ->
   metas (snd (check_task_status sample TID w_task)) = metas w_task) /\
  (forall md, metas w_task !! TID_META = Some md ->
     exists md',
       metas (snd (check_task_status sample TID w_task)) !! TID_META = Some md' /\
       task_id md' = task_id md /\ pid md' = pid md /\
       command md' = command md /\ started_at md' = started_at md).
Proof.
  exact (check_touches_only_its_record sample TID TID_META w_task _ _ eq_refl
           (surjective_pairing _)).
Defined.

Lemma one_response_per_request_witness :
  exists response, sent (snd (handle_request sample PING empty_world))
                   = sent empty_world ++ [response].
Proof.
  exact (one_response_per_request sample PING empty_world
           (snd (handle_request sample PING empty_world)) (Ok tt) eq_refl).
Defined.

Lemma responses_are_well_formed_witness :
  exists response,
    sent (snd (handle_request sample (list_tools (js "a")) w_task))
    = sent w_task ++ [response] /\
    is_response (js "a") response.
Proof.
  exact (responses_are_well_formed sample (list_tools (js "a")) w_task
           (snd (handle_request sample (list_tools (js "a")) w_task)) eq_refl).
Defined.

Lemma falsy_task_id_is_rejected_witness :
  handle_request sample
    (call (JInt 7) "codex_check_result" (obj ["task_id" =: JInt 0])) w_task
  = (Ok tt, sending w_task
              (error_response (JInt 7) (-32602) (lit "task_id is required"))) /\
  is_error_response (JInt 7) (-32602) (lit "task_id is required")
    (error_response (JInt 7) (-32602) (lit "task_id is required")).
Proof.
  exact (falsy_task_id_is_rejected sample _ (JInt 7) [(lit "task_id", JInt 0)] w_task
           (call_is_tool_call _ _ _) eq_refl).
Defined.

Lemma non_object_request_stops_loop_witness :
  main number_env [lit "42" ++ [NL]; PING_LINE] empty_world
  = (Raise AttributeError, empty_world).
Proof.
  refine (non_object_request_stops_loop number_env (lit "42" ++ [NL]) [PING_LINE]
            (JInt 42) empty_world _ eq_refl _); discriminate.
Defined.

Lemma non_iterable_args_raise_witness :
  handle_request sample
    (call (JInt 3) "codex_execute" (obj ["prompt" =: js "hi"; "args" =: JInt 5]))
    empty_world
  = (Raise TypeError, empty_world) /\
  handle_request sample
    (call (JInt 4) "codex_execute_async" (obj ["prompt" =: js "hi"; "args" =: JInt 5]))
    empty_world
  = (Raise TypeError, advance 1 empty_world).
Proof.
  split.
  - exact (proj1 (non_iterable_args_raise sample
                    (call (JInt 3) "codex_execute"
                       (obj ["prompt" =: js "hi"; "args" =: JInt 5]))
                    (JInt 3) [(lit "prompt", js "hi"); (lit "args", JInt 5)]
                    empty_world eq_refl eq_refl)
             (call_is_tool_call _ _ _)).
  - exact (proj2 (non_iterable_args_raise sample
                    (call (JInt 4) "codex_execute_async"
                       (obj ["prompt" =: js "hi"; "args" =: JInt 5]))
                    (JInt 4) [(lit "prompt", js "hi"); (lit "args", JInt 5)]
                    empty_world eq_refl eq_refl)
             (call_is_tool_call _ _ _)).
Defined.

Lemma unusable_task_id_raises_witness :
  handle_request sample
    (call (JInt 7) "codex_check_result" (obj ["task_id" =: JInt 5])) w_task
  = (Raise TypeError, w_task).
Proof.
  refine (proj1 (unusable_task_id_raises sample
                   (call (JInt 7) "codex_check_result" (obj ["task_id" =: JInt 5]))
                   (JInt 7) (obj ["task_id" =: JInt 5]) (JInt 5) w_task
                   (call_is_tool_call _ _ _) eq_refl eq_refl) _).
  discriminate.
Defined.

Lemma execute_defaults_witness :
  handle_request (sample_env (ticking 2000) (RunCompleted (lit "done") []))
    (call (JInt 3) "codex_execute" (obj ["prompt" =: js "hi"])) empty_world
  = (Ok tt, sending (advance 1 empty_world) (text_result (JInt 3) (lit "done"))) /\
  (forall text, is_text_response (JInt 3) text (text_result (JInt 3) text)).
Proof.
  exact (execute_defaults (sample_env (ticking 2000) (RunCompleted (lit "done") []))
           _ (JInt 3) [(lit "prompt", js "hi")] empty_world
           (call_is_tool_call _ _ _) eq_refl eq_refl).
Defined.

Lemma main_output_bound_witness :
  exists out,
    sent (snd (main sample [PING_LINE; [NL]; lit "{bad"] empty_world))
    = sent empty_world ++ out /\
    (length out <= 2)%nat /\
    (Ok tt = Ok tt -> length out = 2%nat).
Proof.
  exact (main_output_bound sample [PING_LINE; [NL]; lit "{bad"] empty_world
           (snd (main sample [PING_LINE; [NL]; lit "{bad"] empty_world)) (Ok tt)
           eq_refl).
Defined.

Lemma main_survives_malformed_input_witness :
  main sample [lit "{bad"; [NL]; lit "}"] w_task
  = (Ok tt, MkWorld (captures w_task) (metas w_task) (ticks w_task)
                    (sent w_task ++ parse_errors sample [lit "{bad"; [NL]; lit "}"])) /\
  Forall (fun response =>
            exists str_e,
              is_error_response JNull (-32700) (lit "Parse error: " ++ str_e)
                response)
         (parse_errors sample [lit "{bad"; [NL]; lit "}"]).
Proof.
  apply (main_survives_malformed_input sample [lit "{bad"; [NL]; lit "}"] w_task).
  intros line Hin _.
  destruct Hin as [<- | [<- | [<- | []]]]; eexists; reflexivity.
Defined.
